(** * Submission evaluation pipeline of sd-leetcode (src/backend/main.go)

    A shallow embedding of the GORM records, of [submissionWorker], of
    [executePythonCodeInContainerTest] against a model of the Docker
    daemon, and of [apiSubmitProblem] together with the worker as a step
    relation over the database and the in-memory submission queue. *)

From stdpp Require Import base gmap strings list.
From Stdlib Require Import String Ascii.
Open Scope string_scope.

(* ------------------------------------------------------------------ *)
(** ** Go string helpers *)

(** The one-byte string "\n". *)
Definition nl : string := String (ascii_of_nat 10) EmptyString.

(** The NUL byte "\x00". *)
Definition nul : ascii := ascii_of_nat 0.

(** [strings.ReplaceAll(s, "\x00", "")]. *)
Fixpoint ReplaceAllNul (s : string) : string :=
  match s with
  | EmptyString => EmptyString
  | String c s' =>
      if Ascii.eqb c nul then ReplaceAllNul s' else String c (ReplaceAllNul s')
  end.

(** Decimal rendering of a natural number, as [fmt.Sprintf("%d", n)]. *)
Fixpoint itoa_aux (fuel n : nat) (acc : string) : string :=
  match fuel with
  | O => acc
  | S f =>
      let acc' := String (ascii_of_nat (48 + n mod 10)) acc in
      if Nat.ltb n 10 then acc' else itoa_aux f (n / 10) acc'
  end.

Definition itoa (n : nat) : string := itoa_aux (S n) n EmptyString.

(* ------------------------------------------------------------------ *)
(** ** Data model (GORM models) *)

Local Set Warnings "-register-all".

(** A value decoded by [json.Unmarshal] into an [interface{}]. *)
Inductive JSON : Type :=
| JNull
| JBool (b : bool)
| JNumber (z : Z)
| JString (s : string)
| JArray (xs : list JSON)
| JObject (kvs : list (string * JSON)).

Module TestCase.
Record t : Type := mk {
  ID : nat;
  ProblemID : nat;
  Type_ : string;
  Input : string;   (* datatypes.JSON: raw JSON text *)
  Output : string
}.
End TestCase.

Module Problem.
Record t : Type := mk {
  ID : nat;
  Title : string;
  Question : string;
  Level : string;
  TestCases : list TestCase.t;
  FunctionName : string
}.
End Problem.

Module Submission.
Record t : Type := mk {
  ID : nat;
  ProblemID : nat;
  UserID : string;
  Code : string;
  Language : string;
  CompetitionID : string;
  Passed : bool;
  Output : string;
  Status : string;  (* "pending" or "completed" *)
  CreatedAt : nat
}.

(** [sub.Passed = p; sub.Output = o; sub.Status = st] on a copy. *)
Definition set_result (s : t) (p : bool) (o : string) (st : string) : t :=
  mk (ID s) (ProblemID s) (UserID s) (Code s) (Language s)
     (CompetitionID s) p o st (CreatedAt s).
End Submission.

(* ------------------------------------------------------------------ *)
(** ** The worker's evaluation of one submission *)

(** The outcome of one call of [executePythonCodeInContainerTest]:
    [Some (out, None)] is [(out, nil)], [Some (out, Some msg)] is a
    returned error with [err.Error() = msg], and [None] is a call that
    never returns. *)
Definition exec_result : Type := option (string * option string).

Section Worker.
(** [json.Unmarshal] into an [interface{}] ([None] when it fails). *)
Variable Unmarshal : string -> option JSON.
(** [json.Marshal] ([None] when it fails). *)
Variable Marshal : JSON -> option string.
(** [strings.TrimSpace]. *)
Variable TrimSpace : string -> string.
(** [executePythonCodeInContainerTest(code, functionName, testInput)]. *)
Variable execute : string -> string -> string -> exec_result.

(** The type switch of lines 348-358 (and 368-378). *)
Definition reduce (v : JSON) : string :=
  match v with
  | JString s => s
  | _ => match Marshal v with Some bs => bs | None => "" end
  end.

Definition case_label (i : nat) : string := "Test case " ++ itoa (i + 1).

(** One iteration of the loop over [problem.TestCases] (lines 340-398):
    whether the case passed and the line it appends to [details];
    [None] when the execution never returns. *)
Definition case_outcome (code functionName : string) (i : nat) (tc : TestCase.t)
    : option (bool * string) :=
  match Unmarshal (TestCase.Input tc) with
  | None => Some (false, case_label i ++ ": invalid input format." ++ nl)
  | Some testInput =>
      let inputStr := reduce testInput in
      match Unmarshal (TestCase.Output tc) with
      | None => Some (false, case_label i ++ ": invalid expected output format." ++ nl)
      | Some expected =>
          let expectedStr := reduce expected in
          match execute code functionName inputStr with
          | None => None
          | Some (_, Some msg) =>
              Some (false, case_label i ++ ": execution error: " ++ msg ++ nl)
          | Some (output, None) =>
              let output := ReplaceAllNul (TrimSpace output) in
              if String.eqb output expectedStr
              then Some (true, case_label i ++ " passed." ++ nl)
              else Some (false, case_label i ++ " failed: expected `"
                                 ++ expectedStr ++ "`, got `" ++ output ++ "`" ++ nl)
          end
      end
  end.

(** The loop state [(allPassed, details)] after one iteration: a failing
    case sets [allPassed = false]; every case appends its line. *)
Definition run_case (code functionName : string) (i : nat) (tc : TestCase.t)
    (st : bool * string) : option (bool * string) :=
  let '(allPassed, details) := st in
  match case_outcome code functionName i tc with
  | None => None
  | Some (ok, line) => Some (if ok then allPassed else false, details ++ line)
  end.

Fixpoint run_cases (code functionName : string) (i : nat) (tcs : list TestCase.t)
    (st : bool * string) : option (bool * string) :=
  match tcs with
  | [] => Some st
  | tc :: rest =>
      match run_case code functionName i tc st with
      | None => None
      | Some st' => run_cases code functionName (S i) rest st'
      end
  end.

(** The per-case outcomes of the cases [tcs], numbered from [i]. *)
Fixpoint case_outcomes (code functionName : string) (i : nat) (tcs : list TestCase.t)
    : option (list (bool * string)) :=
  match tcs with
  | [] => Some []
  | tc :: rest =>
      match case_outcome code functionName i tc with
      | None => None
      | Some o =>
          match case_outcomes code functionName (S i) rest with
          | None => None
          | Some os => Some (o :: os)
          end
      end
  end.

(** The per-case lines appended one after the other. *)
Fixpoint join (lines : list string) : string :=
  match lines with
  | [] => ""
  | l :: rest => l ++ join rest
  end.

Definition function_name (p : Problem.t) : string :=
  if String.eqb (Problem.FunctionName p) "" then "solve" else Problem.FunctionName p.

(** The body of the worker loop once [sub] has been fetched (lines
    318-423): the record passed to [db.Save], or [None] when an
    execution never returns. [problem] is the result of
    [db.Preload("TestCases").First(&problem, sub.ProblemID)]. *)
Definition evaluate (problem : option Problem.t) (sub : Submission.t)
    : option Submission.t :=
  if String.eqb (Submission.Language sub) "python" then
    match problem with
    | None =>
        Some (Submission.set_result sub (Submission.Passed sub)
                (ReplaceAllNul "Error loading problem") "completed")
    | Some p =>
        match run_cases (Submission.Code sub) (function_name p) 0
                (Problem.TestCases p) (true, "") with
        | None => None
        | Some (allPassed, details) =>
            let '(passed, out) :=
              if allPassed then (true, "All test cases passed.") else (false, details) in
            Some (Submission.set_result sub passed (ReplaceAllNul out) "completed")
        end
    end
  else
    let '(passed, out) :=
      if String.eqb (Submission.Code sub) "pass"
      then (true, "Correct Answer") else (false, "Wrong Answer") in
    Some (Submission.set_result sub passed (ReplaceAllNul out) "completed").
End Worker.

(* ------------------------------------------------------------------ *)
(** ** The Docker daemon and [executePythonCodeInContainerTest] *)

Module Docker.
(** How [cli.ContainerWait(ctx, id, WaitConditionNotRunning)] resolves:
    the container stops with an exit code after some seconds (on
    [statusCh]), the daemon reports an error (on [errCh]), or the
    container keeps running and neither channel ever delivers. *)
Inductive wait_outcome : Type :=
| Exits (code : Z) (seconds : nat)
| WaitErr (msg : string)
| NeverExits.

(** The answers the daemon gives to each call; [run cmd] is the combined
    stdout/stderr the command [cmd] writes in the container. *)
Record env : Type := mkEnv {
  client_err : option string;  (* client.NewClientWithOpts *)
  create_err : option string;  (* cli.ContainerCreate *)
  start_err : option string;   (* cli.ContainerStart *)
  wait : wait_outcome;         (* cli.ContainerWait *)
  logs_err : option string;    (* cli.ContainerLogs *)
  read_err : option string;    (* ioutil.ReadAll *)
  remove_err : option string;  (* cli.ContainerRemove *)
  run : list string -> string
}.

Definition with_wait (e : env) (w : wait_outcome) : env :=
  mkEnv (client_err e) (create_err e) (start_err e) w (logs_err e) (read_err e)
    (remove_err e) (run e).

(** The containers that exist on the daemon, with their commands. *)
Record daemon : Type := mkDaemon {
  containers : list (nat * list string);
  next_cid : nat
}.

(** [cli.ContainerCreate]: a fresh container with command [cmd]. *)
Definition create (d : daemon) (cmd : list string) : nat * daemon :=
  (next_cid d, mkDaemon ((next_cid d, cmd) :: containers d) (S (next_cid d))).

(** [cli.ContainerRemove(ctx, id, RemoveOptions{Force: true})]. *)
Definition remove (d : daemon) (id : nat) : daemon :=
  mkDaemon (List.filter (fun c => negb (Nat.eqb (fst c) id)) (containers d)) (next_cid d).

(** Every container id is below the next id the daemon hands out. *)
Definition well_formed (d : daemon) : Prop :=
  Forall (fun c => fst c < next_cid d) (containers d).
End Docker.

Section Execute.
(** [fmt.Sprintf("%q", s)]: a double-quoted Go string literal. *)
Variable Quote : string -> string.

(** The program built at lines 434-437. *)
Definition wrapper (code functionName testInput : string) : string :=
  "exec('''" ++ code ++ "''')" ++ nl
    ++ "print(" ++ functionName ++ "(" ++ Quote testInput ++ "))" ++ nl.

(** [executePythonCodeInContainerTest] (lines 427-477): the returned
    [(output, err)] and the daemon afterwards, or [None] when the call
    blocks forever in the [select] of lines 456-462. *)
Definition executePythonCodeInContainerTest (e : Docker.env) (d : Docker.daemon)
    (code functionName testInput : string)
    : option ((string * option string) * Docker.daemon) :=
  match Docker.client_err e with
  | Some err => Some (("", Some err), d)
  | None =>
      let cmd := ["python3"; "-c"; wrapper code functionName testInput] in
      match Docker.create_err e with
      | Some err => Some (("", Some err), d)
      | None =>
          let '(id, d1) := Docker.create d cmd in
          match Docker.start_err e with
          | Some err => Some (("", Some err), d1)
          | None =>
              match Docker.wait e with
              | Docker.NeverExits => None
              | Docker.WaitErr err => Some (("", Some err), d1)
              | Docker.Exits _ _ =>
                  match Docker.logs_err e with
                  | Some err => Some (("", Some err), d1)
                  | None =>
                      match Docker.read_err e with
                      | Some err => Some (("", Some err), d1)
                      | None =>
                          (* the error of cli.ContainerRemove is ignored
                             (line 475): a failed removal keeps the
                             container and the output is still returned *)
                          let d2 := match Docker.remove_err e with
                                    | None => Docker.remove d1 id
                                    | Some _ => d1
                                    end in
                          Some ((Docker.run e cmd, None), d2)
                      end
                  end
              end
          end
      end
  end.

(** The worker's view of one call: the returned pair only. *)
Definition execute_in (e : Docker.env) (d : Docker.daemon)
    : string -> string -> string -> exec_result :=
  fun code functionName testInput =>
    option_map fst (executePythonCodeInContainerTest e d code functionName testInput).
End Execute.

(* ------------------------------------------------------------------ *)
(** ** The database, the submission queue and the worker loop *)

(** The rows of the database and the channel [submissionQueue]
    (capacity 100). *)
Record State : Type := mkState {
  subs : gmap nat Submission.t;
  problems : gmap nat Problem.t;
  queue : list nat;
  next_id : nat
}.

Definition queue_cap : nat := 100.

(** The record built by [apiSubmitProblem] (lines 240-248) with the id
    [db.Create] assigns. *)
Definition new_submission (id : nat) (p : Problem.t) (userID code language : string)
    (now : nat) : Submission.t :=
  Submission.mk id (Problem.ID p) userID code language "comp1" false "" "pending" now.

Section System.
Variable Unmarshal : string -> option JSON.
Variable Marshal : JSON -> option string.
Variable TrimSpace : string -> string.

Inductive step : State -> State -> Prop :=
(** [apiSubmitProblem]: the problem exists, the row is created as
    pending and its id is sent on the channel once a slot is free. The
    creation and the send are one step here; a send that blocks on a
    full channel is the [None] reply of [apiSubmitProblem] below. *)
| step_submit s pid p userID code language now :
    problems s !! pid = Some p ->
    List.length (queue s) < queue_cap ->
    step s (mkState
              (<[next_id s := new_submission (next_id s) p userID code language now]> (subs s))
              (problems s)
              ((queue s ++ [next_id s])%list)
              (S (next_id s)))
(** [submissionWorker]: [db.First(&sub, subID)] fails, [continue]. *)
| step_work_missing s id rest :
    queue s = id :: rest ->
    subs s !! id = None ->
    step s (mkState (subs s) (problems s) rest (next_id s))
(** [submissionWorker]: evaluation with whatever the sandbox answers
    ([execute]); loading the problem may fail ([load_ok = false]) and
    the error of [db.Save] is ignored ([save_ok = false] keeps the row). *)
| step_work s id rest sub sub' (execute : string -> string -> string -> exec_result)
    (load_ok save_ok : bool) :
    queue s = id :: rest ->
    subs s !! id = Some sub ->
    evaluate Unmarshal Marshal TrimSpace execute
      (if load_ok then problems s !! Submission.ProblemID sub else None) sub = Some sub' ->
    step s (mkState
              (if save_ok then <[Submission.ID sub' := sub']> (subs s) else subs s)
              (problems s) rest (next_id s)).

(** States reached from a database with no submission and an empty
    queue. *)
Definition initial (s : State) : Prop := subs s = ∅ /\ queue s = [].

Definition reachable (s : State) : Prop :=
  exists s0, initial s0 /\ rtc step s0 s.
End System.

(* ------------------------------------------------------------------ *)
(** ** The API handlers over the database *)

(** A JSON reply: the HTTP status and either the payload or the text of
    [gin.H{"error": ...}]. *)
Inductive response (A : Type) : Type :=
| Resp (status : nat) (body : A + string).
Arguments Resp {A}.

Section Handlers.
(** [c.ShouldBindJSON(&payload)]: the [code] and [language] fields of
    the body ([None] when the body does not bind). *)
Variable ShouldBindJSON : string -> option (string * string).

(** [apiSubmitProblem] (lines 215-261) for the path id [id], the
    [X-User-ID] header [xUserID] and the request body; [first_ok] is
    whether [db.First] can run its query (a database error makes it
    fail although the problem exists) and [create_ok] whether
    [db.Create] succeeds. The reply is [None] when the send on a full
    channel blocks, the row being created already. *)
Definition apiSubmitProblem (s : State) (id : nat) (first_ok : bool) (xUserID body : string)
    (create_ok : bool) (now : nat) : State * option (response (nat * string)) :=
  match if first_ok then problems s !! id else None with
  | None => (s, Some (Resp 404 (inr "Problem not found")))
  | Some p =>
      let userID := if String.eqb xUserID "" then "anonymous" else xUserID in
      match ShouldBindJSON body with
      | None => (s, Some (Resp 400 (inr "Invalid payload")))
      | Some (code, language) =>
          if negb create_ok then (s, Some (Resp 500 (inr "Could not save submission")))
          else
            let sid := next_id s in
            let sub := new_submission sid p userID code language now in
            let subs' := <[sid := sub]> (subs s) in
            if Nat.ltb (List.length (queue s)) queue_cap
            then (mkState subs' (problems s) ((queue s ++ [sid])%list) (S sid),
                  Some (Resp 200 (inl (sid, Submission.Status sub))))
            else (mkState subs' (problems s) (queue s) (S sid), None)
      end
  end.
End Handlers.


(** The filter of the leaderboard query (line 284). *)
Definition counts_row (competitionID : string) (sub : Submission.t) : bool :=
  String.eqb (Submission.CompetitionID sub) competitionID &&
  String.eqb (Submission.Status sub) "completed" && Submission.Passed sub.

(** The rows of [apiLeaderboard] (lines 275-299): [SELECT user_id,
    COUNT ... WHERE ... GROUP BY user_id], as a map from user to
    count (SQL gives the groups in no fixed order). *)
Definition leaderboard (competitionID : string) (rows : gmap nat Submission.t)
    : gmap string nat :=
  map_fold (fun _ sub acc =>
              if counts_row competitionID sub
              then <[Submission.UserID sub := S (default 0 (acc !! Submission.UserID sub))]> acc
              else acc) ∅ rows.

(** The number of rows of [user] that the query counts. *)
Definition solved (competitionID user : string) (rows : gmap nat Submission.t) : nat :=
  size (filter (fun kv : nat * Submission.t =>
                  counts_row competitionID kv.2 = true /\ Submission.UserID kv.2 = user) rows).

(** Go's 64-bit [int]: bounds and two's complement wrap-around. *)
Definition int_min : Z := (- 2 ^ 63)%Z.
Definition int_max : Z := (2 ^ 63 - 1)%Z.
Definition wrap64 (z : Z) : Z := ((z + 2 ^ 63) mod 2 ^ 64 - 2 ^ 63)%Z.

Definition digit_value (c : ascii) : option Z :=
  let n := nat_of_ascii c in
  if Nat.leb 48 n && Nat.leb n 57 then Some (Z.of_nat (n - 48)) else None.

Fixpoint decimal_aux (s : string) (acc : Z) : option Z :=
  match s with
  | EmptyString => Some acc
  | String c s' =>
      match digit_value c with
      | Some d => decimal_aux s' (acc * 10 + d)%Z
      | None => None
      end
  end.

(** One or more decimal digits. *)
Definition parse_decimal (s : string) : option Z :=
  match s with
  | EmptyString => None
  | _ => decimal_aux s 0%Z
  end.

(** The value of [strconv.Atoi(s)] (its error is dropped at lines
    171-172): 0 on a syntax error, the clamped value out of range. *)
Definition Atoi (s : string) : Z :=
  let '(neg, digits) :=
    match s with
    | String c rest =>
        if Ascii.eqb c "-"%char then (true, rest)
        else if Ascii.eqb c "+"%char then (false, rest)
        else (false, s)
    | EmptyString => (false, s)
    end in
  match parse_decimal digits with
  | None => 0%Z
  | Some n => Z.max int_min (Z.min int_max (if neg then (- n)%Z else n))
  end.

(** [apiGetProblems] (lines 168-186) over the problem rows in the order
    the database scans them for this one query (there is no ORDER BY,
    so two requests may see different orders): [Offset] is applied when
    positive and [Limit] when non-negative, as GORM builds the clause. *)
Definition apiGetProblems (rows : list Problem.t) (pageStr limitStr : string)
    : list Problem.t :=
  let page := Atoi pageStr in
  let limit := Atoi limitStr in
  let page := if Z.ltb page 1 then 1%Z else page in
  let limit := if Z.ltb limit 1 then 100%Z else limit in
  let offset := wrap64 ((page - 1) * limit)%Z in
  let rows := if Z.ltb 0%Z offset then drop (Z.to_nat offset) rows else rows in
  take (Z.to_nat limit) rows.

(** A Go string without the byte "\x00". *)
Definition nul_free (s : string) : bool :=
  negb (existsb (Ascii.eqb nul) (list_ascii_of_string s)).

(* ------------------------------------------------------------------ *)
(** ** Concrete instances of the library functions, for examples *)

(** [strings.TrimSpace] on ASCII text. *)
Definition is_space (c : ascii) : bool :=
  let n := nat_of_ascii c in
  Nat.eqb n 32 || (Nat.leb 9 n && Nat.leb n 13).

Fixpoint trim_left (s : string) : string :=
  match s with
  | String c s' => if is_space c then trim_left s' else s
  | EmptyString => EmptyString
  end.

Definition rev_string (s : string) : string := string_of_list_ascii (rev (list_ascii_of_string s)).

Definition TrimSpaceAscii (s : string) : string :=
  rev_string (trim_left (rev_string (trim_left s))).

Definition dquote : ascii := ascii_of_nat 34.
Definition bslash : ascii := ascii_of_nat 92.

(** The one-byte string made of a double quote. *)
Definition dq : string := String dquote EmptyString.

(** [json.Unmarshal] restricted to the literals [null], [true], [false],
    and strings without escapes; [None] for every other text (used here
    only on such literals and on malformed text). *)
Definition UnmarshalLit (s : string) : option JSON :=
  if String.eqb s "null" then Some JNull
  else if String.eqb s "true" then Some (JBool true)
  else if String.eqb s "false" then Some (JBool false)
  else
    match list_ascii_of_string s with
    | c :: rest =>
        match rev rest with
        | c' :: inner =>
            if Ascii.eqb c dquote && Ascii.eqb c' dquote &&
               negb (existsb (fun x => Ascii.eqb x dquote || Ascii.eqb x bslash) inner)
            then Some (JString (string_of_list_ascii (rev inner)))
            else None
        | [] => None
        end
    | [] => None
    end.

(** [json.Marshal] on values without strings that need escaping. *)
Fixpoint MarshalSimple (v : JSON) : option string :=
  match v with
  | JNull => Some "null"
  | JBool b => Some (if b then "true" else "false")
  | JNumber z =>
      Some ((if Z.ltb z 0 then "-" else "") ++ itoa (Z.to_nat (Z.abs z)))
  | JString s => Some (dq ++ s ++ dq)
  | JArray xs =>
      let fix go (xs : list JSON) : option (list string) :=
        match xs with
        | [] => Some []
        | x :: xs' =>
            match MarshalSimple x, go xs' with
            | Some a, Some b => Some (a :: b)
            | _, _ => None
            end
        end in
      match go xs with
      | Some parts => Some ("[" ++ String.concat "," parts ++ "]")
      | None => None
      end
  | JObject kvs =>
      let fix go (kvs : list (string * JSON)) : option (list string) :=
        match kvs with
        | [] => Some []
        | (k, x) :: kvs' =>
            match MarshalSimple x, go kvs' with
            | Some a, Some b => Some ((dq ++ k ++ dq ++ ":" ++ a) :: b)
            | _, _ => None
            end
        end in
      match go kvs with
      | Some parts => Some ("{" ++ String.concat "," parts ++ "}")
      | None => None
      end
  end.

(** [fmt.Sprintf("%q", s)] on printable ASCII text. *)
Definition QuoteAscii (s : string) : string :=
  String dquote (String.concat ""
    (map (fun c => if Ascii.eqb c dquote then String bslash (String dquote EmptyString)
                   else if Ascii.eqb c bslash then String bslash (String bslash EmptyString)
                   else String c EmptyString)
         (list_ascii_of_string s)) ++ String dquote EmptyString).

(* ------------------------------------------------------------------ *)
(** ** Example data *)

(** The seeded "Reverse String" problem (lines 518-543). *)
Definition tc_reverse : TestCase.t :=
  TestCase.mk 2 2 "default" (dq ++ "hello" ++ dq) (dq ++ "olleh" ++ dq).

Definition prob_reverse : Problem.t :=
  Problem.mk 2 "Reverse String" "Write a function that reverses a string." "Easy"
    [tc_reverse] "reverseString".

Definition sub_python (code : string) : Submission.t :=
  Submission.mk 7 2 "user123" code "python" "comp1" false "" "pending" 0.

Definition daemon0 : Docker.daemon := Docker.mkDaemon [] 0.

(** A daemon that runs every container to a clean exit after one second,
    the container printing "olleh". *)
Definition env_olleh : Docker.env :=
  Docker.mkEnv None None None (Docker.Exits 0 1) None None None
    (fun _ => "olleh" ++ nl).

(** A problem without test cases. *)
Definition prob_empty : Problem.t :=
  Problem.mk 3 "Empty" "A problem without test cases." "Easy" [] "".

(** A test case whose input text is not valid JSON. *)
Definition tc_malformed : TestCase.t :=
  TestCase.mk 4 2 "default" "{" (dq ++ "olleh" ++ dq).

Definition sub_javascript (code : string) : Submission.t :=
  Submission.mk 8 2 "user123" code "javascript" "comp1" false "" "pending" 0.

(** A daemon on which [cli.ContainerStart] fails. *)
Definition env_start_fails : Docker.env :=
  Docker.mkEnv None None (Some "OCI runtime create failed") (Docker.Exits 0 1) None None None
    (fun _ => "").


(** A daemon that cannot be reached: every [cli.ContainerCreate] fails. *)
Definition unreachable_msg : string :=
  "Cannot connect to the Docker daemon at unix:///var/run/docker.sock. Is the docker daemon running?".

Definition env_unreachable : Docker.env :=
  Docker.mkEnv None (Some unreachable_msg) None (Docker.Exits 0 1) None None None
    (fun _ => "").

(** "Reverse String" with its test case stored twice. *)
Definition prob_reverse2 : Problem.t :=
  Problem.mk 5 "Reverse String" "Write a function that reverses a string." "Easy"
    [tc_reverse; tc_reverse] "reverseString".

(* ------------------------------------------------------------------ *)
(** ** General lemmas *)

(** [String.append] is [simpl never] under stdpp: its equations. *)
Lemma str_app_nil_l (a : string) : "" ++ a = a.
Proof. reflexivity. Qed.

Lemma str_app_cons (x : ascii) (a b : string) : String x a ++ b = String x (a ++ b).
Proof. reflexivity. Qed.

Lemma str_app_assoc (a b c : string) : (a ++ b) ++ c = a ++ (b ++ c).
Proof.
  induction a as [|x a IH]; [reflexivity|].
  rewrite !str_app_cons. now f_equal.
Qed.

Lemma str_app_nil_r (a : string) : a ++ "" = a.
Proof.
  induction a as [|x a IH]; [reflexivity|].
  rewrite str_app_cons. now f_equal.
Qed.

Section Loop.
Variable Unmarshal : string -> option JSON.
Variable Marshal : JSON -> option string.
Variable TrimSpace : string -> string.
Variable execute : string -> string -> string -> exec_result.

(** One case compared equal: both JSON texts decode, the execution
    returns without error, and the trimmed, NUL-free output equals the
    reduced expected output. *)
Definition case_matches (code functionName : string) (tc : TestCase.t) : Prop :=
  exists v e out,
    Unmarshal (TestCase.Input tc) = Some v /\
    Unmarshal (TestCase.Output tc) = Some e /\
    execute code functionName (reduce Marshal v) = Some (out, None) /\
    ReplaceAllNul (TrimSpace out) = reduce Marshal e.

Lemma run_cases_outcomes code fn i tcs b d :
  run_cases Unmarshal Marshal TrimSpace execute code fn i tcs (b, d) =
  option_map (fun os => (b && forallb fst os, d ++ join (map snd os)))
    (case_outcomes Unmarshal Marshal TrimSpace execute code fn i tcs).
Proof.
  revert i b d. induction tcs as [|tc tcs IH]; intros i b d; simpl.
  - now rewrite andb_true_r, str_app_nil_r.
  - unfold run_case.
    destruct (case_outcome _ _ _ _ _ _ _ tc) as [[ok line]|]; [|reflexivity].
    rewrite IH.
    destruct (case_outcomes _ _ _ _ _ _ _ tcs) as [os|]; [|reflexivity].
    simpl. rewrite str_app_assoc. f_equal. f_equal.
    destruct ok, b; reflexivity.
Qed.

Lemma case_outcome_ok code fn i tc ok line :
  case_outcome Unmarshal Marshal TrimSpace execute code fn i tc = Some (ok, line) ->
  (ok = true <-> case_matches code fn tc).
Proof.
  unfold case_outcome, case_matches.
  destruct (Unmarshal (TestCase.Input tc)) as [v|] eqn:Hin.
  2:{ intros [= <- _]. split; [discriminate|]. intros (v & _ & _ & H & _). congruence. }
  destruct (Unmarshal (TestCase.Output tc)) as [e|] eqn:Hout.
  2:{ intros [= <- _]. split; [discriminate|]. intros (v' & e & _ & _ & H & _). congruence. }
  destruct (execute code fn (reduce Marshal v)) as [[out [msg|]]|] eqn:Hex; [| |discriminate].
  - intros [= <- _]. split; [discriminate|].
    intros (v' & e' & out' & Hv & He & Hx & _).
    assert (v' = v) by congruence; subst v'. congruence.
  - destruct (String.eqb_spec (ReplaceAllNul (TrimSpace out)) (reduce Marshal e)) as [Heq|Hne];
      intros [= <- _].
    + split; [|reflexivity]. intros _. now exists v, e, out.
    + split; [discriminate|].
      intros (v' & e' & out' & Hv & He & Hx & Hc).
      assert (v' = v) by congruence; assert (e' = e) by congruence; subst v' e'.
      assert (out' = out) by congruence. subst out'. contradiction.
Qed.

Lemma case_outcomes_ok code fn i tcs os :
  case_outcomes Unmarshal Marshal TrimSpace execute code fn i tcs = Some os ->
  (forallb fst os = true <-> Forall (case_matches code fn) tcs).
Proof.
  revert i os. induction tcs as [|tc tcs IH]; intros i os; simpl.
  - intros [= <-]. split; [constructor|reflexivity].
  - destruct (case_outcome _ _ _ _ _ _ _ tc) as [[ok line]|] eqn:Hc; [|discriminate].
    destruct (case_outcomes _ _ _ _ _ _ _ tcs) as [os'|] eqn:Hr; [|discriminate].
    intros [= <-]. simpl.
    rewrite andb_true_iff, Forall_cons, (IH _ _ Hr), (case_outcome_ok _ _ _ _ _ _ Hc).
    reflexivity.
Qed.
Lemma case_outcomes_length code fn i tcs os :
  case_outcomes Unmarshal Marshal TrimSpace execute code fn i tcs = Some os ->
  List.length os = List.length tcs.
Proof.
  revert i os. induction tcs as [|tc tcs IH]; intros i os; simpl.
  - now intros [= <-].
  - destruct (case_outcome _ _ _ _ _ _ _ tc) as [o|]; [|discriminate].
    destruct (case_outcomes _ _ _ _ _ _ _ tcs) as [os'|] eqn:Hr; [|discriminate].
    intros [= <-]. simpl. f_equal. exact (IH _ _ Hr).
Qed.

Lemma evaluate_python p sub :
  Submission.Language sub = "python" ->
  evaluate Unmarshal Marshal TrimSpace execute (Some p) sub =
  option_map (fun os =>
      Submission.set_result sub (forallb fst os)
        (if forallb fst os then "All test cases passed."
         else ReplaceAllNul (join (map snd os))) "completed")
    (case_outcomes Unmarshal Marshal TrimSpace execute
       (Submission.Code sub) (function_name p) 0 (Problem.TestCases p)).
Proof.
  intros Hlang. unfold evaluate. rewrite Hlang. simpl.
  rewrite run_cases_outcomes.
  destruct (case_outcomes _ _ _ _ _ _ _ _) as [os|]; [|reflexivity].
  simpl. now destruct (forallb fst os).
Qed.
End Loop.

Lemma evaluate_completes Unmarshal Marshal TrimSpace execute problem sub sub' :
  evaluate Unmarshal Marshal TrimSpace execute problem sub = Some sub' ->
  exists passed out, sub' = Submission.set_result sub passed out "completed".
Proof.
  unfold evaluate.
  destruct (String.eqb (Submission.Language sub) "python").
  - destruct problem as [p|]; [|intros [= <-]; eauto].
    destruct (run_cases _ _ _ _ _ _ _ _ _) as [[allPassed details]|]; [|discriminate].
    destruct allPassed; intros [= <-]; eauto.
  - destruct (String.eqb (Submission.Code sub) "pass"); intros [= <-]; eauto.
Qed.

Section Lifecycle.
Variable Unmarshal : string -> option JSON.
Variable Marshal : JSON -> option string.
Variable TrimSpace : string -> string.

Abbreviation step := (step Unmarshal Marshal TrimSpace).

(** Rows are stored under their own id, below the next id; every
    status is pending or completed; the queue holds distinct ids of
    pending rows. *)
Definition inv (s : State) : Prop :=
  (forall k sb, subs s !! k = Some sb ->
     Submission.ID sb = k /\ (k < next_id s)%nat /\
     (Submission.Status sb = "pending" \/ Submission.Status sb = "completed")) /\
  NoDup (queue s) /\
  (forall k, k ∈ queue s ->
     exists sb, subs s !! k = Some sb /\ Submission.Status sb = "pending").

Lemma inv_initial s : initial s -> inv s.
Proof.
  intros [Hs Hq]. unfold inv. rewrite Hs, Hq. split; [|split].
  - intros k sb H. rewrite lookup_empty in H. discriminate.
  - constructor.
  - intros k H. apply not_elem_of_nil in H. contradiction.
Qed.

Lemma inv_step s s' : inv s -> step s s' -> inv s'.
Proof.
  intros (Hrows & Hnd & Hq) Hstep.
  destruct Hstep as [s pid p userID code language now Hp Hcap
                    | s id rest Hqs Hnone
                    | s id rest sub sub' execute load_ok save_ok Hqs Hsub Hev];
    unfold inv; simpl.
  - split; [|split].
    + intros k sb H. destruct (decide (k = next_id s)) as [->|Hne].
      * rewrite lookup_insert_eq in H. injection H as <-. simpl. auto with arith.
      * rewrite lookup_insert_ne in H by congruence.
        destruct (Hrows k sb H) as (? & ? & ?). auto with arith.
    + apply NoDup_app. split; [exact Hnd|]. split; [|apply NoDup_singleton].
      intros x Hx Hin. apply list_elem_of_singleton in Hin. subst x.
      destruct (Hq _ Hx) as (sb & Hsb & _). destruct (Hrows _ _ Hsb) as (_ & Hlt & _). lia.
    + intros k Hk. apply elem_of_app in Hk as [Hk|Hk].
      * destruct (Hq _ Hk) as (sb & Hsb & Hpend).
        destruct (Hrows _ _ Hsb) as (_ & Hlt & _).
        exists sb. rewrite lookup_insert_ne by lia. auto.
      * apply list_elem_of_singleton in Hk. subst k.
        eexists. rewrite lookup_insert_eq. split; reflexivity.
  - rewrite Hqs in Hnd, Hq. apply NoDup_cons in Hnd as [_ Hnd].
    split; [|split].
    + exact Hrows.
    + exact Hnd.
    + intros k Hk. apply Hq. apply elem_of_cons. auto.
  - rewrite Hqs in Hnd, Hq. apply NoDup_cons in Hnd as [Hnotin Hnd].
    destruct (evaluate_completes _ _ _ _ _ _ _ Hev) as (passed & out & ->).
    destruct (Hrows _ _ Hsub) as (Hid & Hlt & _).
    destruct save_ok; simpl; try rewrite Hid.
    + split; [|split].
      * intros k sb H. destruct (decide (k = id)) as [->|Hne].
        -- rewrite lookup_insert_eq in H. injection H as <-. simpl. auto.
        -- rewrite lookup_insert_ne in H by congruence. exact (Hrows _ _ H).
      * exact Hnd.
      * intros k Hk. assert (k <> id) by (intros ->; contradiction).
        rewrite lookup_insert_ne by congruence.
        apply Hq. apply elem_of_cons. auto.
    + split; [|split].
      * exact Hrows.
      * exact Hnd.
      * intros k Hk. apply Hq. apply elem_of_cons. auto.
Qed.

Lemma reachable_inv s : reachable Unmarshal Marshal TrimSpace s -> inv s.
Proof.
  intros (s0 & Hinit & Hrtc).
  apply (rtc_ind_r (R := step) (fun s => inv s) s0); [now apply inv_initial| |exact Hrtc].
  intros y z _ Hyz IH. exact (inv_step y z IH Hyz).
Qed.
End Lifecycle.

(* ------------------------------------------------------------------ *)
(** ** Claims *)

(** C1: for a python submission whose problem loads, once evaluation
    completes, [Passed] is true exactly when every test case of the
    problem compares equal: the output, trimmed and with its NUL bytes
    removed, is textually equal to the reduced expected output. *)
Theorem passed_iff_all_cases_match Unmarshal Marshal TrimSpace execute
    (p : Problem.t) (sub sub' : Submission.t) :
  Submission.Language sub = "python" ->
  evaluate Unmarshal Marshal TrimSpace execute (Some p) sub = Some sub' ->
  (Submission.Passed sub' = true <->
   Forall (case_matches Unmarshal Marshal TrimSpace execute
             (Submission.Code sub) (function_name p)) (Problem.TestCases p)).
Proof.
  intros Hlang. unfold evaluate. rewrite Hlang. simpl.
  rewrite run_cases_outcomes.
  destruct (case_outcomes _ _ _ _ _ _ _ _) as [os|] eqn:Hos; [|discriminate]. simpl.
  rewrite <- (case_outcomes_ok _ _ _ _ _ _ _ _ _ Hos).
  destruct (forallb fst os); simpl; intros [= <-]; simpl; split; congruence.
Qed.

Lemma passed_iff_all_cases_match_witness :
  Submission.Language (sub_python "def reverseString(s): return s[::-1]") = "python" /\
  (Submission.Passed (Submission.set_result (sub_python "def reverseString(s): return s[::-1]")
                        true "All test cases passed." "completed") = true <->
   Forall (case_matches UnmarshalLit MarshalSimple TrimSpaceAscii
             (execute_in QuoteAscii env_olleh daemon0)
             "def reverseString(s): return s[::-1]" (function_name prob_reverse))
     (Problem.TestCases prob_reverse)).
Proof.
  split; [reflexivity|].
  apply (passed_iff_all_cases_match UnmarshalLit MarshalSimple TrimSpaceAscii
           (execute_in QuoteAscii env_olleh daemon0) prob_reverse
           (sub_python "def reverseString(s): return s[::-1]")); reflexivity.
Defined.

(** C4 (as stated, refuted): when the one test case of "Reverse String"
    passes, the output field is "All test cases passed.", not the
    concatenation of the per-case lines ("Test case 1 passed.\n"). *)
Lemma report_concatenation_counterexample :
  case_outcomes UnmarshalLit MarshalSimple TrimSpaceAscii
    (execute_in QuoteAscii env_olleh daemon0) "def reverseString(s): return s[::-1]"
    (function_name prob_reverse) 0 (Problem.TestCases prob_reverse)
  = Some [(true, "Test case 1 passed." ++ nl)] /\
  evaluate UnmarshalLit MarshalSimple TrimSpaceAscii
    (execute_in QuoteAscii env_olleh daemon0) (Some prob_reverse)
    (sub_python "def reverseString(s): return s[::-1]")
  = Some (Submission.set_result (sub_python "def reverseString(s): return s[::-1]")
            true "All test cases passed." "completed") /\
  "All test cases passed." <> join [("Test case 1 passed." ++ nl)].
Proof.
  split; [reflexivity|]. split; [reflexivity|].
  vm_compute. discriminate.
Qed.

(** C4 (amended): for a python submission, the output field is
    "All test cases passed." when every case passed; otherwise it is the
    concatenation, in stored order, of the per-case lines (one per test
    case), with every NUL byte removed. *)
Theorem report_text Unmarshal Marshal TrimSpace execute
    (p : Problem.t) (sub : Submission.t) (os : list (bool * string)) :
  Submission.Language sub = "python" ->
  case_outcomes Unmarshal Marshal TrimSpace execute
    (Submission.Code sub) (function_name p) 0 (Problem.TestCases p) = Some os ->
  List.length os = List.length (Problem.TestCases p) /\
  evaluate Unmarshal Marshal TrimSpace execute (Some p) sub =
  Some (Submission.set_result sub (forallb fst os)
          (if forallb fst os then "All test cases passed."
           else ReplaceAllNul (join (map snd os))) "completed").
Proof.
  intros Hlang Hos. split.
  - exact (case_outcomes_length _ _ _ _ _ _ _ _ _ Hos).
  - rewrite (evaluate_python _ _ _ _ _ _ Hlang), Hos. reflexivity.
Qed.

Lemma report_text_witness :
  Submission.Language (sub_python "def reverseString(s): return s[::-1]") = "python" /\
  case_outcomes UnmarshalLit MarshalSimple TrimSpaceAscii
    (execute_in QuoteAscii env_olleh daemon0) "def reverseString(s): return s[::-1]"
    (function_name prob_reverse) 0 (Problem.TestCases prob_reverse)
  = Some [(true, "Test case 1 passed." ++ nl)] /\
  (List.length [(true, "Test case 1 passed." ++ nl)] = List.length (Problem.TestCases prob_reverse) /\
   evaluate UnmarshalLit MarshalSimple TrimSpaceAscii
     (execute_in QuoteAscii env_olleh daemon0) (Some prob_reverse)
     (sub_python "def reverseString(s): return s[::-1]") =
   Some (Submission.set_result (sub_python "def reverseString(s): return s[::-1]")
     (forallb fst [(true, "Test case 1 passed." ++ nl)])
     (if forallb fst [(true, "Test case 1 passed." ++ nl)] then "All test cases passed."
      else ReplaceAllNul (join (map snd [(true, "Test case 1 passed." ++ nl)]))) "completed")).
Proof.
  split; [reflexivity|]. split; [reflexivity|].
  apply (report_text UnmarshalLit MarshalSimple TrimSpaceAscii
           (execute_in QuoteAscii env_olleh daemon0) prob_reverse
           (sub_python "def reverseString(s): return s[::-1]")); reflexivity.
Defined.

(** C5 (as stated, refuted): a python submission to a problem with no
    test cases completes with [Passed = true] but with the output
    "All test cases passed.", not an empty report. *)
Lemma zero_cases_counterexample :
  evaluate UnmarshalLit MarshalSimple TrimSpaceAscii
    (execute_in QuoteAscii env_olleh daemon0) (Some prob_empty) (sub_python "pass")
  = Some (Submission.set_result (sub_python "pass") true "All test cases passed." "completed") /\
  "All test cases passed." <> "".
Proof. split; [reflexivity | discriminate]. Qed.

(** C5 (amended): a python submission to a problem with zero test cases
    completes with [Passed = true] and the output "All test cases passed.". *)
Theorem zero_cases_all_passed Unmarshal Marshal TrimSpace execute
    (p : Problem.t) (sub : Submission.t) :
  Submission.Language sub = "python" ->
  Problem.TestCases p = [] ->
  evaluate Unmarshal Marshal TrimSpace execute (Some p) sub =
  Some (Submission.set_result sub true "All test cases passed." "completed").
Proof.
  intros Hlang Hnil. rewrite (evaluate_python _ _ _ _ _ _ Hlang), Hnil. reflexivity.
Qed.

Lemma zero_cases_all_passed_witness :
  Submission.Language (sub_python "pass") = "python" /\
  Problem.TestCases prob_empty = [] /\
  evaluate UnmarshalLit MarshalSimple TrimSpaceAscii
    (execute_in QuoteAscii env_olleh daemon0) (Some prob_empty) (sub_python "pass") =
  Some (Submission.set_result (sub_python "pass") true "All test cases passed." "completed").
Proof.
  split; [reflexivity|]. split; [reflexivity|].
  apply zero_cases_all_passed; reflexivity.
Defined.

(** C7 (as stated, refuted): the line recorded for an undecodable input
    is "Test case 1: invalid input format." (capital T, final period,
    newline), not "test case 1: invalid input format". *)
Lemma invalid_input_line_counterexample :
  case_outcome UnmarshalLit MarshalSimple TrimSpaceAscii
    (execute_in QuoteAscii env_olleh daemon0) "pass" "reverseString" 0 tc_malformed
  = Some (false, "Test case 1: invalid input format." ++ nl) /\
  "Test case 1: invalid input format." ++ nl <> "test case 1: invalid input format".
Proof. split; [reflexivity | vm_compute; discriminate]. Qed.

(** C7 (amended): a test case whose input does not decode appends the
    line "Test case N: invalid input format." (N = index + 1, then a
    newline), sets [allPassed] to false, and the loop goes on with the
    next test case. *)
Theorem invalid_input_continues Unmarshal Marshal TrimSpace execute
    (code fn : string) (i : nat) (tc : TestCase.t) (rest : list TestCase.t)
    (allPassed : bool) (details : string) :
  Unmarshal (TestCase.Input tc) = None ->
  run_cases Unmarshal Marshal TrimSpace execute code fn i (tc :: rest) (allPassed, details) =
  run_cases Unmarshal Marshal TrimSpace execute code fn (S i) rest
    (false, details ++ ("Test case " ++ itoa (i + 1) ++ ": invalid input format." ++ nl)).
Proof.
  intros Hin. simpl. unfold run_case, case_outcome. rewrite Hin. reflexivity.
Qed.

Lemma invalid_input_continues_witness :
  UnmarshalLit (TestCase.Input tc_malformed) = None /\
  run_cases UnmarshalLit MarshalSimple TrimSpaceAscii
    (execute_in QuoteAscii env_olleh daemon0) "pass" "reverseString" 0
    [tc_malformed; tc_reverse] (true, "") =
  run_cases UnmarshalLit MarshalSimple TrimSpaceAscii
    (execute_in QuoteAscii env_olleh daemon0) "pass" "reverseString" 1 [tc_reverse]
    (false, "" ++ ("Test case " ++ itoa (0 + 1) ++ ": invalid input format." ++ nl)).
Proof.
  split; [reflexivity|].
  apply invalid_input_continues; reflexivity.
Defined.

(** C10: a submission in any language other than "python" is completed
    without running anything: [Passed] holds exactly when the code is the
    text "pass", with output "Correct Answer", and otherwise the output
    is "Wrong Answer"; the result is the same whatever the sandbox and
    the problem. *)
Theorem non_python_placeholder Unmarshal Marshal TrimSpace execute
    (problem : option Problem.t) (sub : Submission.t) :
  Submission.Language sub <> "python" ->
  evaluate Unmarshal Marshal TrimSpace execute problem sub =
  Some (Submission.set_result sub (String.eqb (Submission.Code sub) "pass")
          (if String.eqb (Submission.Code sub) "pass" then "Correct Answer" else "Wrong Answer")
          "completed").
Proof.
  intros Hlang. unfold evaluate.
  destruct (String.eqb_spec (Submission.Language sub) "python"); [contradiction|].
  destruct (String.eqb (Submission.Code sub) "pass"); reflexivity.
Qed.

Lemma non_python_placeholder_witness :
  Submission.Language (sub_javascript "pass") <> "python" /\
  evaluate UnmarshalLit MarshalSimple TrimSpaceAscii
    (execute_in QuoteAscii env_olleh daemon0) (Some prob_reverse) (sub_javascript "pass") =
  Some (Submission.set_result (sub_javascript "pass")
          (String.eqb (Submission.Code (sub_javascript "pass")) "pass")
          (if String.eqb (Submission.Code (sub_javascript "pass")) "pass"
           then "Correct Answer" else "Wrong Answer") "completed").
Proof.
  split; [discriminate|].
  apply non_python_placeholder. discriminate.
Defined.

Lemma filter_fresh (cs : list (nat * list string)) (n : nat) :
  Forall (fun c => fst c < n) cs ->
  List.filter (fun c => negb (Nat.eqb (fst c) n)) cs = cs.
Proof.
  induction 1 as [|c cs Hc _ IH]; [reflexivity|].
  simpl. destruct (Nat.eqb_spec (fst c) n); [lia|]. simpl. now rewrite IH.
Qed.




(** C3 (as stated, refuted): a container that keeps running makes the
    call block forever, and no budget turns a long run into an error:
    for every budget, a run one second longer returns its output as an
    ordinary, error-free result. *)
Lemma no_time_budget_counterexample :
  executePythonCodeInContainerTest QuoteAscii (Docker.with_wait env_olleh Docker.NeverExits)
    daemon0 "pass" "reverseString" "hello" = None /\
  ~ (exists budget : nat, forall e d code fn input c t,
        Docker.wait e = Docker.Exits c t -> budget < t ->
        exists out msg d',
          executePythonCodeInContainerTest QuoteAscii e d code fn input = Some ((out, Some msg), d')).
Proof.
  split; [reflexivity|].
  intros [budget H].
  destruct (H (Docker.with_wait env_olleh (Docker.Exits 0 (S budget))) daemon0
              "pass" "reverseString" "hello" 0%Z (S budget) eq_refl (Nat.lt_succ_diag_r budget))
    as (out & msg & d' & Hx).
  unfold executePythonCodeInContainerTest in Hx. simpl in Hx. congruence.
Qed.

Lemma case_outcomes_blocked Unmarshal Marshal TrimSpace execute code fn i tcs :
  (forall c f x, execute c f x = None) ->
  Exists (fun tc => is_Some (Unmarshal (TestCase.Input tc)) /\
                    is_Some (Unmarshal (TestCase.Output tc))) tcs ->
  case_outcomes Unmarshal Marshal TrimSpace execute code fn i tcs = None.
Proof.
  intros Hex H. revert i.
  induction H as [tc tcs [[v Hv] [w Hw]] | tc tcs _ IH]; intros i; simpl.
  - unfold case_outcome. rewrite Hv, Hw, Hex. reflexivity.
  - destruct (case_outcome _ _ _ _ _ _ _ tc); [rewrite IH|]; reflexivity.
Qed.

(** C3 (amended): there is no time budget. The running time of the
    container never changes the result; a container that never stops
    makes the call block forever, and so the worker: the evaluation of a
    python submission reaching such a call (a test case whose input and
    expected output decode) never produces a record to save. *)
Theorem no_time_budget Quote (e : Docker.env) (d : Docker.daemon)
    (code fn input : string) (c : Z) (t t' : nat) :
  Docker.client_err e = None -> Docker.create_err e = None -> Docker.start_err e = None ->
  executePythonCodeInContainerTest Quote (Docker.with_wait e (Docker.Exits c t)) d code fn input =
  executePythonCodeInContainerTest Quote (Docker.with_wait e (Docker.Exits c t')) d code fn input /\
  executePythonCodeInContainerTest Quote (Docker.with_wait e Docker.NeverExits) d code fn input
  = None /\
  (forall Unmarshal Marshal TrimSpace (p : Problem.t) (sub : Submission.t),
     Submission.Language sub = "python" ->
     Exists (fun tc => is_Some (Unmarshal (TestCase.Input tc)) /\
                       is_Some (Unmarshal (TestCase.Output tc))) (Problem.TestCases p) ->
     evaluate Unmarshal Marshal TrimSpace
       (execute_in Quote (Docker.with_wait e Docker.NeverExits) d) (Some p) sub = None).
Proof.
  intros Hcl Hcr Hst.
  assert (Hblock : forall code fn input,
    executePythonCodeInContainerTest Quote (Docker.with_wait e Docker.NeverExits) d code fn input
    = None).
  { intros. unfold executePythonCodeInContainerTest, Docker.with_wait; simpl.
    rewrite Hcl, Hcr; simpl. rewrite Hst. reflexivity. }
  split; [|split; [apply Hblock|]].
  - unfold executePythonCodeInContainerTest, Docker.with_wait; simpl.
    rewrite Hcl, Hcr; simpl. rewrite Hst. reflexivity.
  - intros Unmarshal Marshal TrimSpace p sub Hlang Hdec.
    rewrite (evaluate_python _ _ _ _ _ _ Hlang).
    rewrite case_outcomes_blocked; [reflexivity| |exact Hdec].
    intros c' f x. unfold execute_in. rewrite Hblock. reflexivity.
Qed.

Lemma no_time_budget_witness :
  Docker.client_err env_olleh = None /\ Docker.create_err env_olleh = None /\
  Docker.start_err env_olleh = None /\
  (executePythonCodeInContainerTest QuoteAscii (Docker.with_wait env_olleh (Docker.Exits 0 1))
     daemon0 "pass" "solve" "x" =
   executePythonCodeInContainerTest QuoteAscii (Docker.with_wait env_olleh (Docker.Exits 0 3600))
     daemon0 "pass" "solve" "x" /\
   evaluate UnmarshalLit MarshalSimple TrimSpaceAscii
     (execute_in QuoteAscii (Docker.with_wait env_olleh Docker.NeverExits) daemon0)
     (Some prob_reverse) (sub_python "pass") = None).
Proof.
  split; [reflexivity|]. split; [reflexivity|]. split; [reflexivity|].
  destruct (no_time_budget QuoteAscii env_olleh daemon0 "pass" "solve" "x" 0 1 3600
              eq_refl eq_refl eq_refl) as (Ht & _ & Hev).
  split; [exact Ht|].
  apply Hev; [reflexivity|]. apply Exists_cons_hd. split; eexists; reflexivity.
Defined.

Definition exec_error_line (msg : string) (i : nat) : string :=
  case_label i ++ ": execution error: " ++ msg ++ nl.

Lemma case_outcomes_exec_error Unmarshal Marshal TrimSpace execute code fn msg i tcs :
  (forall c f x, execute c f x = Some ("", Some msg)) ->
  exists os,
    case_outcomes Unmarshal Marshal TrimSpace execute code fn i tcs = Some os /\
    List.length os = List.length tcs /\
    (forall k tc, tcs !! k = Some tc ->
       is_Some (Unmarshal (TestCase.Input tc)) -> is_Some (Unmarshal (TestCase.Output tc)) ->
       os !! k = Some (false, exec_error_line msg (i + k))) /\
    (forall k o, os !! k = Some o -> fst o = false).
Proof.
  intros Hex. revert i. induction tcs as [|tc tcs IH]; intros i.
  - exists []. split; [reflexivity|]. split; [reflexivity|]. split.
    + intros k tc' H. rewrite lookup_nil in H. discriminate.
    + intros k o H. rewrite lookup_nil in H. discriminate.
  - assert (Ho : exists o, case_outcome Unmarshal Marshal TrimSpace execute code fn i tc = Some o /\
                   fst o = false /\
                   (is_Some (Unmarshal (TestCase.Input tc)) ->
                    is_Some (Unmarshal (TestCase.Output tc)) ->
                    o = (false, exec_error_line msg i))).
    { unfold case_outcome.
      destruct (Unmarshal (TestCase.Input tc)) as [v|] eqn:Hv.
      2:{ eexists. split; [reflexivity|]. split; [reflexivity|]. intros [? [=]]. }
      destruct (Unmarshal (TestCase.Output tc)) as [w|] eqn:Hw.
      2:{ eexists. split; [reflexivity|]. split; [reflexivity|]. intros _ [? [=]]. }
      rewrite Hex. eexists. split; [reflexivity|]. split; [reflexivity|]. reflexivity. }
    destruct Ho as (o & Hc & Hfst & Hdec).
    destruct (IH (S i)) as (os & Hos & Hlen & Hlines & Hfalse).
    exists (o :: os). simpl. rewrite Hc, Hos. split; [reflexivity|].
    split; [simpl; lia|]. split.
    + intros [|k] tc' Hk Hin Hout; simpl in Hk |- *.
      * injection Hk as <-. rewrite Nat.add_0_r. f_equal. exact (Hdec Hin Hout).
      * rewrite (Hlines k tc' Hk Hin Hout). do 3 f_equal. lia.
    + intros [|k] o' Hk; simpl in Hk; [injection Hk as <-; exact Hfst|].
      exact (Hfalse k o' Hk).
Qed.

(** C6 (as stated, refuted): when the Docker daemon cannot be reached,
    each test case records its own execution error and the next one is
    still run; the evaluation is not aborted. *)
Lemma infrastructure_error_counterexample :
  evaluate UnmarshalLit MarshalSimple TrimSpaceAscii
    (execute_in QuoteAscii env_unreachable daemon0) (Some prob_reverse2)
    (sub_python "def reverseString(s): return s[::-1]")
  = Some (Submission.set_result (sub_python "def reverseString(s): return s[::-1]") false
            ("Test case 1: execution error: " ++ unreachable_msg ++ nl ++
             "Test case 2: execution error: " ++ unreachable_msg ++ nl) "completed").
Proof. vm_compute. reflexivity. Qed.

(** C6 (amended): when the problem cannot be loaded, the submission is
    completed with the output "Error loading problem" and its stored
    [Passed] flag. When every sandbox call fails with the same error (an
    unreachable daemon), evaluation goes through all the test cases:
    each one whose input and expected output decode gets its own "Test
    case N: execution error: msg" line, every case fails, and a problem
    with test cases is completed with [Passed = false] and the lines as
    output. *)
Theorem infrastructure_errors Unmarshal Marshal TrimSpace execute
    (p : Problem.t) (sub : Submission.t) (msg : string) :
  Submission.Language sub = "python" ->
  (forall c f x, execute c f x = Some ("", Some msg)) ->
  evaluate Unmarshal Marshal TrimSpace execute None sub =
  Some (Submission.set_result sub (Submission.Passed sub) "Error loading problem" "completed") /\
  exists os,
    case_outcomes Unmarshal Marshal TrimSpace execute (Submission.Code sub) (function_name p) 0
      (Problem.TestCases p) = Some os /\
    List.length os = List.length (Problem.TestCases p) /\
    (forall k tc, Problem.TestCases p !! k = Some tc ->
       is_Some (Unmarshal (TestCase.Input tc)) -> is_Some (Unmarshal (TestCase.Output tc)) ->
       os !! k = Some (false, exec_error_line msg k)) /\
    (forall k o, os !! k = Some o -> fst o = false) /\
    (Problem.TestCases p <> [] ->
     evaluate Unmarshal Marshal TrimSpace execute (Some p) sub =
     Some (Submission.set_result sub false (ReplaceAllNul (join (map snd os))) "completed")).
Proof.
  intros Hlang Hex. split.
  - unfold evaluate. rewrite Hlang. reflexivity.
  - destruct (case_outcomes_exec_error Unmarshal Marshal TrimSpace execute (Submission.Code sub)
                (function_name p) msg 0 (Problem.TestCases p) Hex)
      as (os & Hos & Hlen & Hlines & Hfalse).
    exists os. split; [exact Hos|]. split; [exact Hlen|]. split; [exact Hlines|].
    split; [exact Hfalse|]. intros Hne.
    rewrite (evaluate_python _ _ _ _ _ _ Hlang), Hos. simpl.
    assert (Hf : forallb fst os = false).
    { destruct os as [|o os'].
      - destruct (Problem.TestCases p); [contradiction | discriminate].
      - simpl. rewrite (Hfalse 0 o eq_refl). reflexivity. }
    rewrite Hf. reflexivity.
Qed.

(** "Reverse String" with a malformed test case before its good one. *)
Definition prob_mixed : Problem.t :=
  Problem.mk 6 "Reverse String" "Write a function that reverses a string." "Easy"
    [tc_malformed; tc_reverse] "reverseString".

Lemma infrastructure_errors_witness :
  Submission.Language (sub_python "pass") = "python" /\
  (forall c f x, execute_in QuoteAscii env_unreachable daemon0 c f x =
                 Some ("", Some unreachable_msg)) /\
  exists os,
    case_outcomes UnmarshalLit MarshalSimple TrimSpaceAscii
      (execute_in QuoteAscii env_unreachable daemon0) "pass" "reverseString" 0
      (Problem.TestCases prob_mixed) = Some os /\
    os !! 1 = Some (false, exec_error_line unreachable_msg 1) /\
    evaluate UnmarshalLit MarshalSimple TrimSpaceAscii
      (execute_in QuoteAscii env_unreachable daemon0) (Some prob_mixed) (sub_python "pass") =
    Some (Submission.set_result (sub_python "pass") false (ReplaceAllNul (join (map snd os)))
            "completed").
Proof.
  assert (Hex : forall c f x, execute_in QuoteAscii env_unreachable daemon0 c f x =
                              Some ("", Some unreachable_msg)) by reflexivity.
  split; [reflexivity|]. split; [exact Hex|].
  destruct (infrastructure_errors UnmarshalLit MarshalSimple TrimSpaceAscii
              (execute_in QuoteAscii env_unreachable daemon0) prob_mixed (sub_python "pass")
              unreachable_msg eq_refl Hex)
    as [_ (os & Hos & _ & Hlines & _ & Hev)].
  exists os. split; [exact Hos|]. split.
  - apply (Hlines 1 tc_reverse); [reflexivity | eexists; reflexivity | eexists; reflexivity].
  - apply Hev. discriminate.
Defined.

(** C8: the text a test case passes to the sandbox is the decoded input
    itself when it is a JSON string and its [json.Marshal] text
    otherwise: the loop's use of the sandbox depends only on the call
    with that text, and that call runs [python3 -c] on a program whose
    last line prints the named function applied to that text, quoted, as
    its only argument. *)
Theorem input_text_passed_to_function Unmarshal Marshal TrimSpace Quote
    (code fn : string) (i : nat) (tc : TestCase.t) (v : JSON) (text : string) :
  Unmarshal (TestCase.Input tc) = Some v ->
  match v with JString s => text = s | _ => Marshal v = Some text end ->
  reduce Marshal v = text /\
  (forall ex1 ex2 : string -> string -> string -> exec_result,
     ex1 code fn text = ex2 code fn text ->
     case_outcome Unmarshal Marshal TrimSpace ex1 code fn i tc =
     case_outcome Unmarshal Marshal TrimSpace ex2 code fn i tc) /\
  (forall (e : Docker.env) (d : Docker.daemon) (c : Z) (t : nat),
     Docker.client_err e = None -> Docker.create_err e = None -> Docker.start_err e = None ->
     Docker.wait e = Docker.Exits c t ->
     Docker.logs_err e = None -> Docker.read_err e = None ->
     execute_in Quote e d code fn text =
     Some (Docker.run e ["python3"; "-c";
             "exec('''" ++ code ++ "''')" ++ nl ++
             "print(" ++ fn ++ "(" ++ Quote text ++ "))" ++ nl], None)).
Proof.
  intros Hin Hv.
  assert (Hred : reduce Marshal v = text).
  { destruct v; simpl in *; try rewrite Hv; congruence. }
  split; [exact Hred|]. split.
  - intros ex1 ex2 Heq. unfold case_outcome. rewrite Hin, Hred.
    destruct (Unmarshal (TestCase.Output tc)); [|reflexivity].
    now rewrite Heq.
  - intros e d c t Hcl Hcr Hst Hw Hlg Hrd.
    unfold execute_in, executePythonCodeInContainerTest.
    rewrite Hcl, Hcr; simpl. rewrite Hst, Hw, Hlg, Hrd. reflexivity.
Qed.

Lemma input_text_passed_to_function_witness :
  UnmarshalLit (TestCase.Input tc_reverse) = Some (JString "hello") /\
  (reduce MarshalSimple (JString "hello") = "hello" /\
   (forall ex1 ex2 : string -> string -> string -> exec_result,
      ex1 "pass" "reverseString" "hello" = ex2 "pass" "reverseString" "hello" ->
      case_outcome UnmarshalLit MarshalSimple TrimSpaceAscii ex1 "pass" "reverseString" 0 tc_reverse =
      case_outcome UnmarshalLit MarshalSimple TrimSpaceAscii ex2 "pass" "reverseString" 0 tc_reverse) /\
   (forall (e : Docker.env) (d : Docker.daemon) (c : Z) (t : nat),
      Docker.client_err e = None -> Docker.create_err e = None -> Docker.start_err e = None ->
      Docker.wait e = Docker.Exits c t ->
      Docker.logs_err e = None -> Docker.read_err e = None ->
      execute_in QuoteAscii e d "pass" "reverseString" "hello" =
      Some (Docker.run e ["python3"; "-c";
              "exec('''" ++ "pass" ++ "''')" ++ nl ++
              "print(" ++ "reverseString" ++ "(" ++ QuoteAscii "hello" ++ "))" ++ nl], None))) /\
  (reduce MarshalSimple (JObject [("target", JNumber 9)]) = ("{" ++ dq ++ "target" ++ dq ++ ":9}")).
Proof.
  split; [reflexivity|]. split.
  - apply (input_text_passed_to_function UnmarshalLit MarshalSimple TrimSpaceAscii QuoteAscii
             "pass" "reverseString" 0 tc_reverse (JString "hello") "hello"); reflexivity.
  - apply (input_text_passed_to_function (fun _ => Some (JObject [("target", JNumber 9)]))
             MarshalSimple TrimSpaceAscii QuoteAscii "pass" "solve" 0 tc_reverse
             (JObject [("target", JNumber 9)]) ("{" ++ dq ++ "target" ++ dq ++ ":9}")); reflexivity.
Defined.

(** C9: along every step of the system from a database without
    submissions, a row is created with status "pending" (and
    [Passed = false], [Output = ""]); a stored row is never removed; a
    row either stays exactly as it is or goes from "pending" to
    "completed" in one step that writes [Passed] and [Output] and keeps
    every other field; a "completed" row never changes again; and every
    status is "pending" or "completed". *)
Theorem status_monotonic Unmarshal Marshal TrimSpace (s s' : State) (k : nat) :
  reachable Unmarshal Marshal TrimSpace s ->
  step Unmarshal Marshal TrimSpace s s' ->
  (subs s !! k = None -> forall sb', subs s' !! k = Some sb' ->
     Submission.Status sb' = "pending" /\ Submission.Passed sb' = false /\
     Submission.Output sb' = "") /\
  (forall sb, subs s !! k = Some sb ->
     exists sb', subs s' !! k = Some sb' /\
       (sb' = sb \/
        (Submission.Status sb = "pending" /\ Submission.Status sb' = "completed" /\
         exists passed out, sb' = Submission.set_result sb passed out "completed"))) /\
  (forall sb, subs s !! k = Some sb -> Submission.Status sb = "completed" ->
     subs s' !! k = Some sb) /\
  (forall sb', subs s' !! k = Some sb' ->
     Submission.Status sb' = "pending" \/ Submission.Status sb' = "completed").
Proof.
  intros Hreach Hstep.
  pose proof (reachable_inv _ _ _ _ Hreach) as Hinv.
  pose proof (inv_step _ _ _ _ _ Hinv Hstep) as (Hrows' & _).
  destruct Hinv as (Hrows & Hnd & Hq).
  assert (Hmain :
    (subs s !! k = None -> forall sb', subs s' !! k = Some sb' ->
       Submission.Status sb' = "pending" /\ Submission.Passed sb' = false /\
       Submission.Output sb' = "") /\
    (forall sb, subs s !! k = Some sb ->
       exists sb', subs s' !! k = Some sb' /\
         (sb' = sb \/
          (Submission.Status sb = "pending" /\ Submission.Status sb' = "completed" /\
           exists passed out, sb' = Submission.set_result sb passed out "completed")))).
  { destruct Hstep as [s pid p userID code language now Hp Hcap
                      | s id rest Hqs Hnone
                      | s id rest sub sub' execute load_ok save_ok Hqs Hsub Hev]; simpl.
    - split.
      + intros Hk sb' H. destruct (decide (k = next_id s)) as [->|Hne].
        * rewrite lookup_insert_eq in H. injection H as <-. auto.
        * rewrite lookup_insert_ne in H by congruence. congruence.
      + intros sb H. destruct (Hrows _ _ H) as (_ & Hlt & _).
        exists sb. rewrite lookup_insert_ne by lia. auto.
    - split; [congruence|]. intros sb H. eauto.
    - destruct (evaluate_completes _ _ _ _ _ _ _ Hev) as (passed & out & ->).
      destruct (Hrows _ _ Hsub) as (Hid & _).
      assert (Hpend : Submission.Status sub = "pending").
      { rewrite Hqs in Hq. destruct (Hq id) as (sb & Hsb & Hp); [apply elem_of_cons; auto|].
        congruence. }
      destruct save_ok; simpl; [|split; [congruence|]; intros sb H; eauto].
      rewrite Hid. split.
      + intros Hk. destruct (decide (k = id)) as [->|Hne]; [congruence|].
        rewrite lookup_insert_ne by congruence. congruence.
      + intros sb H. destruct (decide (k = id)) as [->|Hne].
        * rewrite lookup_insert_eq. rewrite Hsub in H. injection H as <-.
          eexists. split; [reflexivity|]. right. split; [exact Hpend|].
          split; [reflexivity|]. eauto.
        * rewrite lookup_insert_ne by congruence. eauto. }
  destruct Hmain as [Hnew Hold].
  split; [exact Hnew|]. split; [exact Hold|]. split.
  - intros sb Hsb Hdone. destruct (Hold sb Hsb) as (sb' & Hsb' & [->|(Hp & _)]).
    + exact Hsb'.
    + rewrite Hdone in Hp. discriminate.
  - intros sb' H. exact (proj2 (proj2 (Hrows' _ _ H))).
Qed.

(** The state before and after one submission to "Reverse String". *)
Definition state0 : State := mkState ∅ {[2 := prob_reverse]} [] 0.

Definition state1 : State :=
  mkState (<[0 := new_submission 0 prob_reverse "user123" "pass" "python" 0]> ∅)
    {[2 := prob_reverse]} [0] 1.

Lemma status_monotonic_witness :
  reachable UnmarshalLit MarshalSimple TrimSpaceAscii state0 /\
  step UnmarshalLit MarshalSimple TrimSpaceAscii state0 state1 /\
  (subs state0 !! 0 = None -> forall sb', subs state1 !! 0 = Some sb' ->
     Submission.Status sb' = "pending" /\ Submission.Passed sb' = false /\
     Submission.Output sb' = "").
Proof.
  assert (Hr : reachable UnmarshalLit MarshalSimple TrimSpaceAscii state0).
  { exists state0. split; [split; reflexivity | apply rtc_refl]. }
  assert (Hs : step UnmarshalLit MarshalSimple TrimSpaceAscii state0 state1).
  { apply (step_submit UnmarshalLit MarshalSimple TrimSpaceAscii state0 2 prob_reverse
             "user123" "pass" "python" 0); [reflexivity | unfold queue_cap; simpl; lia]. }
  split; [exact Hr|]. split; [exact Hs|].
  exact (proj1 (status_monotonic UnmarshalLit MarshalSimple TrimSpaceAscii state0 state1 0 Hr Hs)).
Defined.

(* ------------------------------------------------------------------ *)
(** ** Further properties of the code *)

Lemma leaderboard_step_comm (competitionID : string) :
  forall (j1 j2 : nat) (z1 z2 : Submission.t) (y : gmap string nat),
  (fun (_ : nat) (sub : Submission.t) (acc : gmap string nat) =>
     if counts_row competitionID sub
     then <[Submission.UserID sub := S (default 0 (acc !! Submission.UserID sub))]> acc
     else acc) j1 z1
    ((fun (_ : nat) (sub : Submission.t) (acc : gmap string nat) =>
     if counts_row competitionID sub
     then <[Submission.UserID sub := S (default 0 (acc !! Submission.UserID sub))]> acc
     else acc) j2 z2 y) =
  (fun (_ : nat) (sub : Submission.t) (acc : gmap string nat) =>
     if counts_row competitionID sub
     then <[Submission.UserID sub := S (default 0 (acc !! Submission.UserID sub))]> acc
     else acc) j2 z2
    ((fun (_ : nat) (sub : Submission.t) (acc : gmap string nat) =>
     if counts_row competitionID sub
     then <[Submission.UserID sub := S (default 0 (acc !! Submission.UserID sub))]> acc
     else acc) j1 z1 y).
Proof.
  intros j1 j2 z1 z2 y. simpl.
  destruct (counts_row competitionID z1), (counts_row competitionID z2); try reflexivity.
  destruct (decide (Submission.UserID z1 = Submission.UserID z2)) as [Heq|Hne].
  - rewrite Heq. rewrite !lookup_insert_eq, !insert_insert_eq. reflexivity.
  - rewrite (lookup_insert_ne _ (Submission.UserID z2)) by congruence.
    rewrite (lookup_insert_ne _ (Submission.UserID z1)) by congruence.
    apply insert_insert_ne. congruence.
Qed.

Lemma leaderboard_lookup (competitionID user : string) (rows : gmap nat Submission.t) :
  leaderboard competitionID rows !! user =
  (if Nat.eqb (solved competitionID user rows) 0 then None
   else Some (solved competitionID user rows)).
Proof.
  unfold leaderboard, solved.
  induction rows as [|i x m Hi IH] using map_ind.
  - rewrite map_fold_empty, map_filter_empty, map_size_empty. reflexivity.
  - rewrite map_fold_insert_L;
      [| intros j1 j2 z1 z2 y _ _ _; apply (leaderboard_step_comm competitionID j1 j2 z1 z2 y) | exact Hi].
    rewrite map_filter_insert.
    assert (Hdel : delete i m = m) by (apply delete_id; exact Hi).
    assert (Hf : filter (fun kv : nat * Submission.t =>
                   counts_row competitionID kv.2 = true /\ Submission.UserID kv.2 = user) m !! i
                 = None).
    { apply map_lookup_filter_None. left. exact Hi. }
    simpl. case_decide as HP.
    + destruct HP as [Hc Hu]. rewrite Hc, Hu. rewrite lookup_insert_eq.
      rewrite map_size_insert_None by exact Hf. rewrite IH.
      destruct (size (filter (fun kv : nat * Submission.t =>
                  counts_row competitionID kv.2 = true /\ Submission.UserID kv.2 = user) m));
        reflexivity.
    + rewrite Hdel.
      destruct (counts_row competitionID x) eqn:Hc; [|exact IH].
      rewrite lookup_insert_ne; [exact IH|].
      intros Hu. apply HP. split; [reflexivity | exact Hu].
Qed.

(** [leaderboard] holds, for each user, the number of rows it counts. *)
Lemma leaderboard_default (competitionID user : string) (rows : gmap nat Submission.t) :
  default 0 (leaderboard competitionID rows !! user) = solved competitionID user rows.
Proof.
  rewrite leaderboard_lookup.
  destruct (Nat.eqb_spec (solved competitionID user rows) 0) as [H|H]; simpl; auto.
Qed.

(** X1: a user appears on the leaderboard of a competition exactly when
    one of their rows of that competition is completed and passed, with
    the number of such rows as its count. *)
Theorem leaderboard_counts (competitionID user : string) (rows : gmap nat Submission.t) :
  (forall n, leaderboard competitionID rows !! user = Some n ->
     n = solved competitionID user rows /\ (0 < n)%nat) /\
  (leaderboard competitionID rows !! user = None <->
   forall k sb, rows !! k = Some sb -> Submission.UserID sb = user ->
     counts_row competitionID sb = false).
Proof.
  rewrite leaderboard_lookup. split.
  - intros n. destruct (Nat.eqb_spec (solved competitionID user rows) 0) as [H|H];
      [discriminate|]. intros [= <-]. split; [reflexivity | lia].
  - unfold solved.
    set (F := filter (fun kv : nat * Submission.t =>
                counts_row competitionID kv.2 = true /\ Submission.UserID kv.2 = user) rows).
    assert (Hz : size F = 0 <->
                 forall k sb, rows !! k = Some sb -> Submission.UserID sb = user ->
                   counts_row competitionID sb = false).
    { unfold F. rewrite map_size_empty_iff, map_empty. split.
      - intros H k sb Hk Hu. specialize (H k).
        apply map_lookup_filter_None in H as [H|H]; [congruence|].
        destruct (counts_row competitionID sb) eqn:Hc; [|reflexivity].
        exfalso. apply (H sb Hk). simpl. auto.
      - intros H i. apply map_lookup_filter_None.
        destruct (rows !! i) as [sb|] eqn:Hi; [right|left; reflexivity].
        intros x [= <-] [Hc Hu]. simpl in Hc, Hu.
        rewrite (H i sb Hi Hu) in Hc. discriminate. }
    destruct (Nat.eqb_spec (size F) 0) as [H|H].
    + split; [intros _; apply Hz; exact H | reflexivity].
    + split; [discriminate|]. intros Hr. exfalso. apply H, Hz, Hr.
Qed.

Lemma ReplaceAllNul_nul_free (s : string) : nul_free (ReplaceAllNul s) = true.
Proof.
  unfold nul_free. induction s as [|c s IH]; [reflexivity|].
  simpl. destruct (Ascii.eqb c nul) eqn:Hc; [exact IH|].
  change (list_ascii_of_string (String c (ReplaceAllNul s)))
    with (c :: list_ascii_of_string (ReplaceAllNul s)).
  cbn [existsb]. rewrite Ascii.eqb_sym, Hc. exact IH.
Qed.

Lemma evaluate_shape Unmarshal Marshal TrimSpace execute problem sub sub' :
  evaluate Unmarshal Marshal TrimSpace execute problem sub = Some sub' ->
  exists passed out, sub' = Submission.set_result sub passed (ReplaceAllNul out) "completed".
Proof.
  unfold evaluate.
  destruct (String.eqb (Submission.Language sub) "python").
  - destruct problem as [p|].
    + destruct (run_cases _ _ _ _ _ _ _ _ _) as [[allPassed details]|]; [|discriminate].
      destruct allPassed; intros [= <-].
      * exists true, "All test cases passed.". reflexivity.
      * exists false, details. reflexivity.
    + intros [= <-]. exists (Submission.Passed sub), "Error loading problem". reflexivity.
  - destruct (String.eqb (Submission.Code sub) "pass"); intros [= <-].
    + exists true, "Correct Answer". reflexivity.
    + exists false, "Wrong Answer". reflexivity.
Qed.

(** X2: the record the worker saves is the fetched row with status
    "completed" and an output free of NUL bytes; its id, problem, user,
    code, language, competition and creation time are those of the
    row. *)
Theorem worker_saved_record Unmarshal Marshal TrimSpace execute problem sub sub' :
  evaluate Unmarshal Marshal TrimSpace execute problem sub = Some sub' ->
  Submission.Status sub' = "completed" /\
  nul_free (Submission.Output sub') = true /\
  Submission.ID sub' = Submission.ID sub /\
  Submission.ProblemID sub' = Submission.ProblemID sub /\
  Submission.UserID sub' = Submission.UserID sub /\
  Submission.Code sub' = Submission.Code sub /\
  Submission.Language sub' = Submission.Language sub /\
  Submission.CompetitionID sub' = Submission.CompetitionID sub /\
  Submission.CreatedAt sub' = Submission.CreatedAt sub.
Proof.
  intros Hev. destruct (evaluate_shape _ _ _ _ _ _ _ Hev) as (passed & out & ->).
  simpl. repeat split. apply ReplaceAllNul_nul_free.
Qed.

Lemma worker_saved_record_witness :
  evaluate UnmarshalLit MarshalSimple TrimSpaceAscii (fun _ _ _ => None) None
    (sub_python "pass") =
  Some (Submission.set_result (sub_python "pass") false "Error loading problem" "completed") /\
  nul_free (Submission.Output
    (Submission.set_result (sub_python "pass") false "Error loading problem" "completed"))
  = true.
Proof.
  assert (Hev : evaluate UnmarshalLit MarshalSimple TrimSpaceAscii (fun _ _ _ => None) None
      (sub_python "pass") =
    Some (Submission.set_result (sub_python "pass") false "Error loading problem" "completed"))
    by reflexivity.
  split; [exact Hev|].
  exact (proj1 (proj2 (worker_saved_record UnmarshalLit MarshalSimple TrimSpaceAscii
    (fun _ _ _ => None) None _ _ Hev))).
Defined.

Section Queue.
Variable Unmarshal : string -> option JSON.
Variable Marshal : JSON -> option string.
Variable TrimSpace : string -> string.

Abbreviation step := (step Unmarshal Marshal TrimSpace).
Abbreviation reachable := (reachable Unmarshal Marshal TrimSpace).

(** Every row belongs to "comp1" and a pending row carries no result;
    the channel holds at most [queue_cap] ids. *)
Definition inv_queue (s : State) : Prop :=
  (forall k sb, subs s !! k = Some sb ->
     Submission.CompetitionID sb = "comp1" /\
     (Submission.Status sb = "pending" ->
      Submission.Passed sb = false /\ Submission.Output sb = "")) /\
  (List.length (queue s) <= queue_cap)%nat.

Lemma inv_queue_step s s' : inv s -> inv_queue s -> step s s' -> inv_queue s'.
Proof.
  intros (Hrows & Hnd & Hq) (Hcomp & Hlen) Hstep.
  destruct Hstep as [s pid p userID code language now Hp Hcap
                    | s id rest Hqs Hnone
                    | s id rest sub sub' execute load_ok save_ok Hqs Hsub Hev];
    unfold inv_queue; simpl.
  - split.
    + intros k sb H. destruct (decide (k = next_id s)) as [->|Hne].
      * rewrite lookup_insert_eq in H. injection H as <-. simpl. auto.
      * rewrite lookup_insert_ne in H by congruence. exact (Hcomp _ _ H).
    + rewrite length_app. simpl. lia.
  - rewrite Hqs in Hlen. split; [exact Hcomp|]. simpl in Hlen. lia.
  - rewrite Hqs in Hlen. split; [|simpl in Hlen; lia].
    destruct (evaluate_completes _ _ _ _ _ _ _ Hev) as (passed & out & ->).
    destruct save_ok; [|exact Hcomp]. simpl.
    intros k sb H. destruct (decide (k = Submission.ID sub)) as [->|Hne].
    + rewrite lookup_insert_eq in H. injection H as <-. simpl.
      split; [|discriminate].
      destruct (Hrows _ _ Hsub) as (<- & _). exact (proj1 (Hcomp _ _ Hsub)).
    + rewrite lookup_insert_ne in H by congruence. exact (Hcomp _ _ H).
Qed.

Lemma reachable_inv_queue s : reachable s -> inv s /\ inv_queue s.
Proof.
  intros (s0 & Hinit & Hrtc).
  apply (rtc_ind_r (R := step) (fun s => inv s /\ inv_queue s) s0); [| |exact Hrtc].
  - split; [now apply inv_initial|]. destruct Hinit as [Hs Hq].
    unfold inv_queue. rewrite Hs, Hq. split.
    + intros k sb H. rewrite lookup_empty in H. discriminate.
    + simpl. unfold queue_cap. lia.
  - intros y z _ Hyz [Hi Hiq]. split; [exact (inv_step _ _ _ y z Hi Hyz)|].
    exact (inv_queue_step y z Hi Hiq Hyz).
Qed.

(** A completed row is left as it is by every step. *)
Lemma completed_stays s s' k sb :
  inv s -> step s s' -> subs s !! k = Some sb -> Submission.Status sb = "completed" ->
  subs s' !! k = Some sb.
Proof.
  intros (Hrows & Hnd & Hq) Hstep Hk Hdone.
  destruct Hstep as [s pid p userID code language now Hp Hcap
                    | s id rest Hqs Hnone
                    | s id rest sub sub' execute load_ok save_ok Hqs Hsub Hev]; simpl.
  - destruct (Hrows _ _ Hk) as (_ & Hlt & _). rewrite lookup_insert_ne by lia. exact Hk.
  - exact Hk.
  - destruct save_ok; [|exact Hk].
    destruct (evaluate_completes _ _ _ _ _ _ _ Hev) as (passed & out & ->). simpl.
    destruct (Hrows _ _ Hsub) as (Hid & _). rewrite Hid.
    destruct (decide (k = id)) as [->|Hne].
    + rewrite Hqs in Hq. destruct (Hq id) as (sb' & Hsb' & Hpend); [apply elem_of_cons; auto|].
      rewrite Hsb' in Hk. injection Hk as ->. rewrite Hdone in Hpend. discriminate.
    + rewrite lookup_insert_ne by congruence. exact Hk.
Qed.

Lemma solved_step c u s s' :
  inv s -> step s s' -> (solved c u (subs s) <= solved c u (subs s'))%nat.
Proof.
  intros Hinv Hstep. unfold solved. apply map_subseteq_size.
  apply map_subseteq_spec. intros k sb H.
  apply map_lookup_filter_Some in H as [Hk [Hc Hu]].
  apply map_lookup_filter_Some. split; [|split; assumption].
  apply (completed_stays s s' k sb Hinv Hstep Hk).
  simpl in Hc. unfold counts_row in Hc.
  apply andb_prop in Hc as [Hc _]. apply andb_prop in Hc as [_ Hc].
  apply String.eqb_eq in Hc. exact Hc.
Qed.
End Queue.

(** The row of [state1] once the worker has run it without its problem,
    and the states after that run and after a second submission. *)
Definition done0 : Submission.t :=
  Submission.set_result (new_submission 0 prob_reverse "user123" "pass" "python" 0)
    false "Error loading problem" "completed".

Definition state2 : State := mkState (<[0 := done0]> (subs state1)) (problems state1) [] 1.

Definition state3 : State :=
  mkState (<[1 := new_submission 1 prob_reverse "anonymous" "pass" "python" 0]> (subs state2))
    (problems state2) [1] 2.

Lemma state0_state1 :
  step UnmarshalLit MarshalSimple TrimSpaceAscii state0 state1.
Proof.
  exact (step_submit UnmarshalLit MarshalSimple TrimSpaceAscii state0 2 prob_reverse
           "user123" "pass" "python" 0 eq_refl ltac:(unfold queue_cap; simpl; lia)).
Qed.

Lemma state1_state2 :
  step UnmarshalLit MarshalSimple TrimSpaceAscii state1 state2.
Proof.
  exact (step_work UnmarshalLit MarshalSimple TrimSpaceAscii state1 0 []
           (new_submission 0 prob_reverse "user123" "pass" "python" 0) done0
           (fun _ _ _ => None) false true eq_refl eq_refl eq_refl).
Qed.

Lemma state2_state3 :
  step UnmarshalLit MarshalSimple TrimSpaceAscii state2 state3.
Proof.
  exact (step_submit UnmarshalLit MarshalSimple TrimSpaceAscii state2 2 prob_reverse
           "anonymous" "pass" "python" 0 eq_refl ltac:(unfold queue_cap; simpl; lia)).
Qed.

Lemma state2_reachable : reachable UnmarshalLit MarshalSimple TrimSpaceAscii state2.
Proof.
  exists state0. split; [split; reflexivity|].
  eapply rtc_l; [exact state0_state1|]. eapply rtc_l; [exact state1_state2|]. apply rtc_refl.
Qed.

Lemma state3_reachable : reachable UnmarshalLit MarshalSimple TrimSpaceAscii state3.
Proof.
  destruct state2_reachable as (s0 & Hinit & Hrtc). exists s0. split; [exact Hinit|].
  eapply rtc_r; [exact Hrtc | exact state2_state3].
Qed.

(** X3: in every reachable state the channel holds at most 100 ids, no
    id twice, each naming a stored row that is still pending. *)
Theorem queue_order Unmarshal Marshal TrimSpace (s : State) :
  reachable Unmarshal Marshal TrimSpace s ->
  (List.length (queue s) <= queue_cap)%nat /\ NoDup (queue s) /\
  (forall k, k ∈ queue s ->
     exists sb, subs s !! k = Some sb /\ Submission.Status sb = "pending").
Proof.
  intros Hr. destruct (reachable_inv_queue _ _ _ s Hr) as [(_ & Hnd & Hq) (_ & Hlen)].
  auto.
Qed.

Lemma queue_order_witness :
  reachable UnmarshalLit MarshalSimple TrimSpaceAscii state3 /\
  (List.length (queue state3) <= queue_cap)%nat /\ NoDup (queue state3).
Proof.
  split; [exact state3_reachable|].
  destruct (queue_order UnmarshalLit MarshalSimple TrimSpaceAscii state3 state3_reachable)
    as (Hl & Hn & _).
  split; [exact Hl | exact Hn].
Defined.

(** X4: in every reachable state a pending row has [Passed = false] and
    an empty output, and every row belongs to the competition
    "comp1". *)
Theorem pending_rows_unevaluated Unmarshal Marshal TrimSpace (s : State) (k : nat)
    (sb : Submission.t) :
  reachable Unmarshal Marshal TrimSpace s ->
  subs s !! k = Some sb ->
  Submission.CompetitionID sb = "comp1" /\
  (Submission.Status sb = "pending" ->
   Submission.Passed sb = false /\ Submission.Output sb = "").
Proof.
  intros Hr Hk. destruct (reachable_inv_queue _ _ _ s Hr) as [_ (Hcomp & _)].
  exact (Hcomp _ _ Hk).
Qed.

Lemma pending_rows_unevaluated_witness :
  reachable UnmarshalLit MarshalSimple TrimSpaceAscii state3 /\
  subs state3 !! 1 = Some (new_submission 1 prob_reverse "anonymous" "pass" "python" 0) /\
  Submission.Passed (new_submission 1 prob_reverse "anonymous" "pass" "python" 0) = false.
Proof.
  assert (Hk : subs state3 !! 1 =
               Some (new_submission 1 prob_reverse "anonymous" "pass" "python" 0))
    by reflexivity.
  split; [exact state3_reachable|]. split; [exact Hk|].
  exact (proj1 (proj2 (pending_rows_unevaluated UnmarshalLit MarshalSimple TrimSpaceAscii
    state3 1 _ state3_reachable Hk) eq_refl)).
Defined.

(** X5: in every reachable state the leaderboard of any competition
    other than "comp1" is empty. *)
Theorem leaderboard_other_competition Unmarshal Marshal TrimSpace (s : State)
    (competitionID : string) :
  reachable Unmarshal Marshal TrimSpace s ->
  competitionID <> "comp1" ->
  leaderboard competitionID (subs s) = ∅.
Proof.
  intros Hr Hc. destruct (reachable_inv_queue _ _ _ s Hr) as [_ (Hcomp & _)].
  apply map_empty. intros u. rewrite leaderboard_lookup.
  assert (H0 : solved competitionID u (subs s) = 0).
  { unfold solved. apply map_size_empty_iff, map_empty. intros k.
    apply map_lookup_filter_None.
    destruct (subs s !! k) as [sb|] eqn:Hk; [right|left; reflexivity].
    intros x [= <-] [Hrow _]. simpl in Hrow. unfold counts_row in Hrow.
    apply andb_prop in Hrow as [Hrow _]. apply andb_prop in Hrow as [Hrow _].
    apply String.eqb_eq in Hrow. rewrite (proj1 (Hcomp _ _ Hk)) in Hrow.
    apply Hc. symmetry. exact Hrow. }
  rewrite H0. reflexivity.
Qed.

Lemma leaderboard_other_competition_witness :
  reachable UnmarshalLit MarshalSimple TrimSpaceAscii state3 /\
  leaderboard "comp2" (subs state3) = ∅.
Proof.
  split; [exact state3_reachable|].
  apply (leaderboard_other_competition UnmarshalLit MarshalSimple TrimSpaceAscii state3 "comp2"
           state3_reachable). discriminate.
Defined.

(** X6: along every step from a reachable state, no user's count on the
    leaderboard of any competition decreases. *)
Theorem leaderboard_monotonic Unmarshal Marshal TrimSpace (s s' : State)
    (competitionID user : string) :
  reachable Unmarshal Marshal TrimSpace s ->
  step Unmarshal Marshal TrimSpace s s' ->
  (default 0 (leaderboard competitionID (subs s) !! user)
   <= default 0 (leaderboard competitionID (subs s') !! user))%nat.
Proof.
  intros Hr Hs. rewrite !leaderboard_default.
  destruct (reachable_inv_queue _ _ _ s Hr) as [Hinv _].
  exact (solved_step _ _ _ competitionID user s s' Hinv Hs).
Qed.

Lemma leaderboard_monotonic_witness :
  reachable UnmarshalLit MarshalSimple TrimSpaceAscii state2 /\
  step UnmarshalLit MarshalSimple TrimSpaceAscii state2 state3 /\
  (default 0 (leaderboard "comp1" (subs state2) !! "user123")
   <= default 0 (leaderboard "comp1" (subs state3) !! "user123"))%nat.
Proof.
  split; [exact state2_reachable|]. split; [exact state2_state3|].
  exact (leaderboard_monotonic UnmarshalLit MarshalSimple TrimSpaceAscii state2 state3
           "comp1" "user123" state2_reachable state2_state3).
Defined.

(** A body that binds to the code "pass" in python. *)
Definition bind_pass_python (body : string) : option (string * string) :=
  Some ("pass", "python").




(** X8: an error reply from [apiSubmitProblem] leaves the database and
    the channel as they were: 404 when [db.First] fails (the problem
    does not exist, or a database error), 400 when the body does not
    bind, 500 when the row cannot be created. *)
Theorem submit_rejected ShouldBindJSON (s s' : State) (id : nat) (first_ok : bool)
    (xUserID body : string) (create_ok : bool) (now status : nat) (msg : string) :
  apiSubmitProblem ShouldBindJSON s id first_ok xUserID body create_ok now
    = (s', Some (Resp status (inr msg))) ->
  s' = s /\
  (((first_ok = false \/ problems s !! id = None) /\
    status = 404 /\ msg = "Problem not found") \/
   (first_ok = true /\ problems s !! id <> None /\ ShouldBindJSON body = None /\
    status = 400 /\ msg = "Invalid payload") \/
   (first_ok = true /\ problems s !! id <> None /\ ShouldBindJSON body <> None /\
    create_ok = false /\ status = 500 /\ msg = "Could not save submission")).
Proof.
  unfold apiSubmitProblem. destruct first_ok.
  2:{ intros H. injection H as <- <- <-. split; [reflexivity|]. left. auto. }
  destruct (problems s !! id) as [p|] eqn:Hp.
  - destruct (ShouldBindJSON body) as [[code language]|] eqn:Hb.
    + destruct create_ok; simpl.
      * destruct (Nat.ltb _ _); discriminate.
      * intros H. injection H as <- <- <-. split; [reflexivity|].
        right; right. repeat split; discriminate || reflexivity.
    + intros H. injection H as <- <- <-. split; [reflexivity|].
      right; left. repeat split; discriminate || reflexivity.
  - intros H. injection H as <- <- <-. split; [reflexivity|]. left. auto.
Qed.

Lemma submit_rejected_witness :
  apiSubmitProblem bind_pass_python state2 2 false "" "{}" true 0
    = (state2, Some (Resp 404 (inr "Problem not found"))) /\
  problems state2 !! 2 = Some prob_reverse /\ state2 = state2.
Proof.
  assert (H : apiSubmitProblem bind_pass_python state2 2 false "" "{}" true 0
                = (state2, Some (Resp 404 (inr "Problem not found")))) by reflexivity.
  split; [exact H|]. split; [reflexivity|].
  exact (proj1 (submit_rejected bind_pass_python state2 state2 2 false "" "{}" true 0 404
                  "Problem not found" H)).
Defined.



Lemma wrap64_multiple (k : Z) : wrap64 (k * 2 ^ 64) = 0%Z.
Proof.
  unfold wrap64. rewrite Z.add_comm, Z_mod_plus_full. reflexivity.
Qed.

Definition rows3 : list Problem.t := [prob_reverse; prob_empty; prob_reverse2].

(** X10: a [limit] parameter that is missing, starts with a character
    that is neither a digit nor a sign, or parses to a number below 1
    gives the same page as [limit=100], so at most 100 problems. *)
Theorem default_limit (rows : list Problem.t) (pageStr limitStr : string) :
  (limitStr = "" \/
   (exists c rest, limitStr = String c rest /\ digit_value c = None /\
      c <> "-"%char /\ c <> "+"%char) \/
   (Atoi limitStr < 1)%Z) ->
  apiGetProblems rows pageStr limitStr = apiGetProblems rows pageStr "100" /\
  (List.length (apiGetProblems rows pageStr limitStr) <= 100)%nat.
Proof.
  intros Hlim.
  assert (Hlt : (Atoi limitStr < 1)%Z).
  { destruct Hlim as [->|[(c & rest & -> & Hd & Hm & Hp)|H]]; [reflexivity| |exact H].
    unfold Atoi.
    destruct (Ascii.eqb_spec c "-"%char) as [|_]; [contradiction|].
    destruct (Ascii.eqb_spec c "+"%char) as [|_]; [contradiction|].
    unfold parse_decimal. simpl. rewrite Hd. reflexivity. }
  unfold apiGetProblems. destruct (Z.ltb_spec (Atoi limitStr) 1); [|lia].
  split; [reflexivity|]. rewrite length_take. lia.
Qed.

Lemma default_limit_witness :
  ("abc" = "" \/
   (exists c rest, "abc" = String c rest /\ digit_value c = None /\
      c <> "-"%char /\ c <> "+"%char) \/
   (Atoi "abc" < 1)%Z) /\
  apiGetProblems rows3 "1" "abc" = apiGetProblems rows3 "1" "100".
Proof.
  assert (H : "abc" = "" \/
   (exists c rest, "abc" = String c rest /\ digit_value c = None /\
      c <> "-"%char /\ c <> "+"%char) \/
   (Atoi "abc" < 1)%Z).
  { right; left. exists "a"%char, "bc". split; [reflexivity|].
    split; [reflexivity|]. split; discriminate. }
  split; [exact H|].
  exact (proj1 (default_limit rows3 "1" "abc" H)).
Defined.

(** X11: the offset [(page - 1) * limit] wraps around as a 64-bit [int]:
    a page whose offset is a multiple of 2^64 makes the same query as
    the first page (no OFFSET, the same LIMIT). *)
Theorem page_offset_wraps (rows : list Problem.t) (pageStr limitStr : string) (k : Z) :
  (1 <= Atoi limitStr)%Z ->
  ((Atoi pageStr - 1) * Atoi limitStr = k * 2 ^ 64)%Z ->
  apiGetProblems rows pageStr limitStr = apiGetProblems rows "1" limitStr.
Proof.
  intros Hl Hk. unfold apiGetProblems.
  destruct (Z.ltb_spec (Atoi limitStr) 1); [lia|].
  destruct (Z.ltb_spec (Atoi pageStr) 1); [reflexivity|].
  rewrite Hk, wrap64_multiple. reflexivity.
Qed.

Lemma page_offset_wraps_witness :
  (1 <= Atoi "4")%Z /\
  ((Atoi "4611686018427387905" - 1) * Atoi "4" = 1 * 2 ^ 64)%Z /\
  apiGetProblems rows3 "4611686018427387905" "4" = apiGetProblems rows3 "1" "4".
Proof.
  assert (H1 : (1 <= Atoi "4")%Z) by (apply Z.leb_le; reflexivity).
  assert (H2 : ((Atoi "4611686018427387905" - 1) * Atoi "4" = 1 * 2 ^ 64)%Z)
    by reflexivity.
  split; [exact H1|]. split; [exact H2|].
  exact (page_offset_wraps rows3 "4611686018427387905" "4" 1 H1 H2).
Defined.

Lemma create_well_formed (d : Docker.daemon) (cmd : list string) :
  Docker.well_formed d -> Docker.well_formed (snd (Docker.create d cmd)).
Proof.
  unfold Docker.well_formed, Docker.create. simpl. intros H.
  constructor; [simpl; lia|].
  eapply Forall_impl; [exact H|]. simpl. intros c Hc. lia.
Qed.

(** X12: on a daemon whose container ids are all below its next id, a
    call of [executePythonCodeInContainerTest] that returns removes no
    container that existed before it, creates at most one, and leaves
    the ids below the next id: the forced removal only hits the
    container the call created. *)
Theorem execute_keeps_containers Quote (e : Docker.env) (d d' : Docker.daemon)
    (code fn input : string) (r : string * option string) :
  Docker.well_formed d ->
  executePythonCodeInContainerTest Quote e d code fn input = Some (r, d') ->
  Docker.well_formed d' /\
  (forall c, In c (Docker.containers d) -> In c (Docker.containers d')) /\
  (List.length (Docker.containers d') <= S (List.length (Docker.containers d)))%nat.
Proof.
  intros Hwf. unfold executePythonCodeInContainerTest.
  set (cmd := ["python3"; "-c"; wrapper Quote code fn input]).
  assert (Hsame : Docker.well_formed d /\
            (forall c, In c (Docker.containers d) -> In c (Docker.containers d)) /\
            (List.length (Docker.containers d) <= S (List.length (Docker.containers d)))%nat)
    by (split; [exact Hwf|]; split; [auto | lia]).
  assert (Hnew : Docker.well_formed (snd (Docker.create d cmd)) /\
            (forall c, In c (Docker.containers d) ->
               In c (Docker.containers (snd (Docker.create d cmd)))) /\
            (List.length (Docker.containers (snd (Docker.create d cmd)))
               <= S (List.length (Docker.containers d)))%nat).
  { split; [apply create_well_formed, Hwf|]. simpl. split; [auto | lia]. }
  destruct (Docker.client_err e); [intros [= _ <-]; exact Hsame|].
  destruct (Docker.create_err e); [intros [= _ <-]; exact Hsame|].
  destruct (Docker.start_err e); [intros [= _ <-]; exact Hnew|].
  destruct (Docker.wait e); [|intros [= _ <-]; exact Hnew | discriminate].
  destruct (Docker.logs_err e); [intros [= _ <-]; exact Hnew|].
  destruct (Docker.read_err e); [intros [= _ <-]; exact Hnew|].
  destruct (Docker.remove_err e); [intros [= _ <-]; exact Hnew|].
  intros [= _ <-]. unfold Docker.remove. simpl.
  rewrite Nat.eqb_refl. simpl. rewrite filter_fresh by exact Hwf.
  split; [|split; [auto | lia]].
  unfold Docker.well_formed. simpl. eapply Forall_impl; [exact Hwf|]. simpl. intros c Hc. lia.
Qed.

Lemma execute_keeps_containers_witness :
  Docker.well_formed (Docker.mkDaemon [(0, ["true"])] 1) /\
  executePythonCodeInContainerTest QuoteAscii env_start_fails (Docker.mkDaemon [(0, ["true"])] 1)
    "pass" "solve" "x" =
  Some (("", Some "OCI runtime create failed"),
        Docker.mkDaemon [(1, ["python3"; "-c"; wrapper QuoteAscii "pass" "solve" "x"]);
                         (0, ["true"])] 2) /\
  In (0, ["true"]) (Docker.containers
    (Docker.mkDaemon [(1, ["python3"; "-c"; wrapper QuoteAscii "pass" "solve" "x"]);
                      (0, ["true"])] 2)).
Proof.
  assert (Hwf : Docker.well_formed (Docker.mkDaemon [(0, ["true"])] 1))
    by (repeat constructor).
  assert (Hex : executePythonCodeInContainerTest QuoteAscii env_start_fails
      (Docker.mkDaemon [(0, ["true"])] 1) "pass" "solve" "x" =
    Some (("", Some "OCI runtime create failed"),
          Docker.mkDaemon [(1, ["python3"; "-c"; wrapper QuoteAscii "pass" "solve" "x"]);
                           (0, ["true"])] 2)) by reflexivity.
  split; [exact Hwf|]. split; [exact Hex|].
  apply (proj1 (proj2 (execute_keeps_containers QuoteAscii env_start_fails _ _ _ _ _ _ Hwf Hex))).
  simpl. auto.
Defined.

